(** * MCP9808 driver: a shallow embedding of [mcp9808.py] and its properties

    The driver is MicroPython code (it imports [machine]): integers are
    unbounded, a [bytearray] item assignment keeps the low eight bits of the
    value, and [float] is IEEE-754 binary32 or binary64 depending on the
    port.  Integers are modelled by [Z], bytes by [Z] in [0, 256), floats by
    the Standard Library's executable specification [spec_float]
    (round-to-nearest-even), and the I2C bus by an interface that any device
    model can implement. *)

From Stdlib Require Import ZArith List String Bool Lia.
From Stdlib Require Import Floats.SpecFloat.
Import ListNotations.
Local Open Scope Z_scope.

(** ** Exceptions and outcomes *)

(** What the two [raise Exception(...)] of [__check_device] report. *)
Inductive id_mismatch :=
| InvalidManufacturerID (got : list Z)
| InvalidDeviceID (got : Z).

Inductive exn :=
| TypeError
| ValueError
| OverflowError
| AttributeError
| OSError                      (* a failed bus transaction *)
| Exception (why : id_mismatch).

Inductive outcome (A : Type) :=
| Ok (a : A)
| Raise (e : exn).
Arguments Ok {A} a.
Arguments Raise {A} e.

Definition obind {A B} (o : outcome A) (k : A -> outcome B) : outcome B :=
  match o with
  | Ok a => k a
  | Raise e => Raise e
  end.

(** ** Python numbers *)

(** The float implementation of the MicroPython build. *)
Inductive float_impl := FloatSingle | FloatDouble.

Definition fprec (fi : float_impl) : Z :=
  match fi with FloatSingle => 24 | FloatDouble => 53 end.

Definition femax (fi : float_impl) : Z :=
  match fi with FloatSingle => 128 | FloatDouble => 1024 end.

Inductive number :=
| Int (z : Z)
| Float (f : spec_float).

Inductive pyval :=
| PNone
| PBool (b : bool)
| PStr (s : string)
| PNum (n : number).

Module PyNum.
Section WithFloatImpl.
Variable fi : float_impl.

(** [float(z)] *)
Definition float_of_int (z : Z) : spec_float :=
  binary_normalize (fprec fi) (femax fi) z 0 false.

(** The literal [0.25]. *)
Definition quarter : spec_float :=
  binary_normalize (fprec fi) (femax fi) 1 (-2) false.

Definition to_float (n : number) : spec_float :=
  match n with
  | Int z => float_of_int z
  | Float f => f
  end.

(** [a < b]; a comparison with a NaN is [False]. *)
Definition ltb (a b : number) : bool :=
  match a, b with
  | Int x, Int y => x <? y
  | _, _ => SFltb (to_float a) (to_float b)
  end.

(** [a > b] *)
Definition gtb (a b : number) : bool := ltb b a.

(** [a == b]; an int and a float are compared as floats, and a NaN equals
    nothing. *)
Definition eqb (a b : number) : bool :=
  match a, b with
  | Int x, Int y => x =? y
  | _, _ => SFeqb (to_float a) (to_float b)
  end.

(** [a <= b] *)
Definition leb (a b : number) : bool :=
  match a, b with
  | Int x, Int y => x <=? y
  | _, _ => SFleb (to_float a) (to_float b)
  end.

Definition add (a b : number) : number :=
  match a, b with
  | Int x, Int y => Int (x + y)
  | _, _ => Float (SFadd (fprec fi) (femax fi) (to_float a) (to_float b))
  end.

Definition sub (a b : number) : number :=
  match a, b with
  | Int x, Int y => Int (x - y)
  | _, _ => Float (SFsub (fprec fi) (femax fi) (to_float a) (to_float b))
  end.

(** [a / b], true division; the driver only divides by the non-zero
    constants [0.25] and [16]. *)
Definition truediv (a b : number) : number :=
  Float (SFdiv (fprec fi) (femax fi) (to_float a) (to_float b)).

(** [int(f)] on a float truncates toward zero and refuses infinities and
    NaN. *)
Definition int_of_float (f : spec_float) : outcome Z :=
  match f with
  | S754_zero _ => Ok 0
  | S754_finite s m e =>
      Ok (cond_Zopp s (match e with
                       | Z0 => Zpos m
                       | Zpos p => Z.shiftl (Zpos m) (Zpos p)
                       | Zneg p => Z.shiftr (Zpos m) (Zpos p)
                       end))
  | S754_infinity _ => Raise OverflowError
  | S754_nan => Raise ValueError
  end.

(** [int(n)] *)
Definition int (n : number) : outcome Z :=
  match n with
  | Int z => Ok z
  | Float f => int_of_float f
  end.

(** A float that the format can hold. *)
Definition valid (n : number) : bool :=
  match n with
  | Int _ => true
  | Float f => valid_binary (fprec fi) (femax fi) f
  end.
End WithFloatImpl.
End PyNum.

(** [bool(z)] for an integer. *)
Definition py_bool (z : Z) : bool := negb (z =? 0).

(** A bool used as an integer operand. *)
Definition b2z (b : bool) : Z := Z.b2z b.

(** [v == k] for an argument of any type and an int [k]: a bool counts as
    0 or 1, a number is compared by value, [None] and a string equal no
    int. *)
Definition equals_int (fi : float_impl) (v : pyval) (k : Z) : bool :=
  match v with
  | PBool b => b2z b =? k
  | PNum n => PyNum.eqb fi n (Int k)
  | PNone | PStr _ => false
  end.

(** [v & k] for an argument of any type and an int [k]: defined on an int
    and on a bool, a [TypeError] on everything else. *)
Definition and_int (v : pyval) (k : Z) : outcome Z :=
  match v with
  | PBool b => Ok (Z.land (b2z b) k)
  | PNum (Int z) => Ok (Z.land z k)
  | PNum (Float _) | PNone | PStr _ => Raise TypeError
  end.

(** [buf[i] = v] on a [bytearray]: MicroPython stores the low eight bits. *)
Definition store_byte (v : Z) : Z := Z.land v 0xFF.

Definition is_byte (b : Z) : Prop := 0 <= b < 256.

Definition bytes_eqb (a b : list Z) : bool :=
  if list_eq_dec Z.eq_dec a b then true else false.

(** ** Module constants *)

Definition HYST_00 : Z := 0.
Definition HYST_15 : Z := 1.
Definition HYST_30 : Z := 2.
Definition HYST_60 : Z := 3.

Definition RES_0_5 : Z := 0.
Definition RES_0_25 : Z := 1.
Definition RES_0_125 : Z := 2.
Definition RES_0_0625 : Z := 3.

Definition BASE_ADDR : Z := 0x18.
Definition REG_CFG : Z := 0x01.
Definition REG_ATU : Z := 0x02.
Definition REG_ATL : Z := 0x03.
Definition REG_ATC : Z := 0x04.
Definition REG_TEM : Z := 0x05.
Definition REG_MFR : Z := 0x06.
Definition REG_DEV : Z := 0x07.
Definition REG_RES : Z := 0x08.

(** ** The bus collaborator *)

(** [readfrom_mem(addr, memaddr, nbytes)] and [writeto_mem(addr, memaddr,
    buf)] of [machine.I2C] / [machine.SoftI2C], over a device state [Dev].
    [None] is a failed transaction ([OSError]).  A successful read hands
    back exactly [nbytes] bytes. *)
Class I2C (Dev : Type) := {
  readfrom_mem : Dev -> Z -> Z -> nat -> option (list Z) * Dev;
  writeto_mem : Dev -> Z -> Z -> list Z -> option unit * Dev;
  readfrom_mem_bytes :
    forall d a r n bs d',
      readfrom_mem d a r n = (Some bs, d') ->
      List.length bs = n /\ Forall is_byte bs
}.

Inductive bus_event :=
| BusRead (addr reg : Z) (nbytes : nat) (res : option (list Z))
| BusWrite (addr reg : Z) (data : list Z) (res : option unit).

(** ** Diagnostics *)

(** The texts handed to [__debug], with the values they interpolate. *)
Inductive message :=
| WarnRevision (got : Z)
| WarnHysteresis (set get : Z)
| WarnShutdown (set get : bool)
| WarnCritLock (set get : bool)
| WarnIrqClear
| WarnWindowLock (set get : bool)
| WarnAlertCtrl (set get : bool)
| WarnAlertSel (set get : bool)
| WarnAlertPol (set get : bool)
| WarnAlertMode (set get : bool)
| WarnOperationalRange
| WarnAlertLimit (set got : list Z)
| WarnResolution (set : pyval) (got : Z).

(** ** The session object *)

Record config := {
  hyst_mode : Z;
  shdn : bool;
  crit_lock : bool;
  window_lock : bool;
  irq_clear_bit : bool;
  alert : bool;
  alert_ctrl : bool;
  alert_sel : bool;
  alert_pol : bool;
  alert_mode : bool
}.

Record mcp9808 := {
  debug_bit : bool;            (* self.__debug_bit *)
  addr : Z;                    (* self.__addr *)
  mfr_id : list Z;             (* self.__mfr_id *)
  dev_id : list Z;             (* self.__dev_id *)
  cfg : config                 (* the attributes set by __get_config *)
}.

Definition with_cfg (self : mcp9808) (c : config) : mcp9808 :=
  {| debug_bit := debug_bit self; addr := addr self;
     mfr_id := mfr_id self; dev_id := dev_id self; cfg := c |}.

(** Objects that an attribute of the session can evaluate to. *)
Inductive pyobj :=
| OBool (b : bool)
| OMethod (name : string).

(** [a == b] on such objects: a bound method is equal to no bool. *)
Definition py_eq (a b : pyobj) : bool :=
  match a, b with
  | OBool x, OBool y => Bool.eqb x y
  | OMethod n, OMethod m => String.eqb n m
  | _, _ => false
  end.

(** Attribute lookup for the two private names involved in diagnostics:
    the instance dictionary first ([__init__] stores the flag under
    [__debug_bit]), then the class, where [__debug] is the method. *)
Definition instance_attr (self : mcp9808) (name : string) : option pyobj :=
  if String.eqb name "__debug_bit" then Some (OBool (debug_bit self))
  else None.

Definition class_attr (name : string) : option pyobj :=
  if String.eqb name "__debug" then Some (OMethod "__debug") else None.

Definition getattr (self : mcp9808) (name : string) : option pyobj :=
  match instance_attr self name with
  | Some v => Some v
  | None => class_attr name
  end.

(** ** The world outside the session and the monad of the methods *)

Record world (Dev : Type) := {
  dev : Dev;                      (* the bus and what hangs on it *)
  bus_log : list bus_event;       (* every transaction attempted, oldest first *)
  stdout : list message           (* what [print] has written, oldest first *)
}.
Arguments dev {Dev} w.
Arguments bus_log {Dev} w.
Arguments stdout {Dev} w.

(** A method runs in a world and either returns or raises; what it did to
    the world before raising stays done. *)
Definition M (Dev A : Type) : Type := world Dev -> outcome A * world Dev.

Definition ret {Dev A} (a : A) : M Dev A := fun w => (Ok a, w).

Definition bind {Dev A B} (c : M Dev A) (k : A -> M Dev B) : M Dev B :=
  fun w =>
    match c w with
    | (Ok a, w') => k a w'
    | (Raise e, w') => (Raise e, w')
    end.

Definition raise {Dev A} (e : exn) : M Dev A := fun w => (Raise e, w).

Definition lift {Dev A} (o : outcome A) : M Dev A := fun w => (o, w).

Definition when {Dev} (b : bool) (c : M Dev unit) : M Dev unit :=
  if b then c else ret tt.

Declare Scope py_scope.
Delimit Scope py_scope with py.
Notation "x <- c ;; k" := (bind c (fun x => k))
  (at level 61, c at next level, right associativity) : py_scope.
Notation "c ;;; k" := (bind c (fun _ => k))
  (at level 61, right associativity) : py_scope.
Notation "x <~ c ;; k" := (obind c (fun x => k))
  (at level 61, c at next level, right associativity) : py_scope.
Local Open Scope py_scope.

Definition print {Dev} (text : message) : M Dev unit :=
  fun w => (Ok tt, {| dev := dev w; bus_log := bus_log w;
                      stdout := stdout w ++ [text] |}).

Section Bus.
Context {Dev : Type} `{I2C Dev}.

(** [self.__i2c.readfrom_mem(addr, reg, n)] *)
Definition i2c_readfrom_mem (a r : Z) (n : nat) : M Dev (list Z) :=
  fun w =>
    let '(res, d) := readfrom_mem (dev w) a r n in
    let w' := {| dev := d; bus_log := bus_log w ++ [BusRead a r n res];
                 stdout := stdout w |} in
    match res with
    | Some bs => (Ok bs, w')
    | None => (Raise OSError, w')
    end.

(** [self.__i2c.writeto_mem(addr, reg, buf)] *)
Definition i2c_writeto_mem (a r : Z) (buf : list Z) : M Dev unit :=
  fun w =>
    let '(res, d) := writeto_mem (dev w) a r buf in
    let w' := {| dev := d; bus_log := bus_log w ++ [BusWrite a r buf res];
                 stdout := stdout w |} in
    match res with
    | Some _ => (Ok tt, w')
    | None => (Raise OSError, w')
    end.
End Bus.

(** ** The codecs inside the methods *)

(** Lines 63-72 of [__get_config]: the attributes read out of the two
    bytes of the configuration register. *)
Definition unpack_config (buf : list Z) : config :=
  let b0 := nth 0 buf 0 in
  let b1 := nth 1 buf 0 in
  {| hyst_mode := Z.land (Z.shiftr b0 1) 0x03;
     shdn := py_bool (Z.land b0 0x01);
     crit_lock := py_bool (Z.land (Z.shiftr b1 7) 0x01);
     window_lock := py_bool (Z.land (Z.shiftr b1 6) 0x01);
     irq_clear_bit := py_bool (Z.land (Z.shiftr b1 5) 0x01);
     alert := py_bool (Z.land (Z.shiftr b1 4) 0x01);
     alert_ctrl := py_bool (Z.land (Z.shiftr b1 3) 0x01);
     alert_sel := py_bool (Z.land (Z.shiftr b1 2) 0x01);
     alert_pol := py_bool (Z.land (Z.shiftr b1 1) 0x01);
     alert_mode := py_bool (Z.land b1 0x01) |}.

(** Lines 140-150 of [__set_config]: the two bytes sent for the values
    settled on.  The [alert] field of the record has no place in them. *)
Definition pack_config (c : config) : list Z :=
  [ store_byte (Z.lor (Z.shiftl (hyst_mode c) 1) (b2z (shdn c)));
    store_byte
      (Z.lor (Z.lor (Z.lor (Z.lor (Z.lor (Z.lor
         (Z.shiftl (b2z (crit_lock c)) 7)
         (Z.shiftl (b2z (window_lock c)) 6))
         (Z.shiftl (b2z (irq_clear_bit c)) 5))
         (Z.shiftl (b2z (alert_ctrl c)) 3))
         (Z.shiftl (b2z (alert_sel c)) 2))
         (Z.shiftl (b2z (alert_pol c)) 1))
         (b2z (alert_mode c))) ].

(** The keyword arguments of [__set_config].  [PNone] is [None]; the
    hysteresis mode is an [int] or [None].  Every argument defaults to
    [None] but [irq_clear_bit], which defaults to [False]. *)
Record config_args := {
  arg_hyst_mode : option Z;
  arg_shdn : pyval;
  arg_crit_lock : pyval;
  arg_window_lock : pyval;
  arg_irq_clear_bit : pyval;
  arg_alert_ctrl : pyval;
  arg_alert_sel : pyval;
  arg_alert_pol : pyval;
  arg_alert_mode : pyval
}.

(** [if x is None: x = self.x] *)
Definition or_cached (x : pyval) (cached : bool) : pyval :=
  match x with
  | PNone => PBool cached
  | _ => x
  end.

(** [if x.__class__ != bool: raise TypeError(...)] *)
Definition expect_bool (x : pyval) : outcome bool :=
  match x with
  | PBool b => Ok b
  | _ => Raise TypeError
  end.

(** Lines 86-138 of [__set_config]: the values settled on, after the
    defaults and the validation.  The [alert] field is not an argument;
    it is carried along unchanged. *)
Definition requested_config (c : config) (a : config_args) : outcome config :=
  let hyst := match arg_hyst_mode a with None => hyst_mode c | Some h => h end in
  let shdn' := or_cached (arg_shdn a) (shdn c) in
  let crit_lock' := or_cached (arg_crit_lock a) (crit_lock c) in
  let window_lock' := or_cached (arg_window_lock a) (window_lock c) in
  let alert_ctrl' := or_cached (arg_alert_ctrl a) (alert_ctrl c) in
  let alert_sel' := or_cached (arg_alert_sel a) (alert_sel c) in
  let alert_pol' := or_cached (arg_alert_pol a) (alert_pol c) in
  let alert_mode' := or_cached (arg_alert_mode a) (alert_mode c) in
  if negb (existsb (Z.eqb hyst) [HYST_00; HYST_15; HYST_30; HYST_60])
  then Raise ValueError
  else
    s <~ expect_bool shdn' ;;
    cl <~ expect_bool crit_lock' ;;
    wl <~ expect_bool window_lock' ;;
    ic <~ expect_bool (arg_irq_clear_bit a) ;;
    ac <~ expect_bool alert_ctrl' ;;
    asel <~ expect_bool alert_sel' ;;
    ap <~ expect_bool alert_pol' ;;
    am <~ expect_bool alert_mode' ;;
    Ok {| hyst_mode := hyst; shdn := s; crit_lock := cl; window_lock := wl;
          irq_clear_bit := ic; alert := alert c; alert_ctrl := ac;
          alert_sel := asel; alert_pol := ap; alert_mode := am |}.

(** Lines 203-224 of [__set_alert_limit]: the two bytes built for a limit
    that passed the checks. *)
Definition alert_limit_buf (fi : float_impl) (limit : number) : outcome (list Z) :=
  let sign := if PyNum.ltb fi limit (Int 0) then 0x10 else 0x00 in
  integral <~ (if PyNum.ltb fi (Int (-1)) limit && PyNum.ltb fi limit (Int 0)
               then Ok 0xFF
               else i <~ PyNum.int limit ;; Ok (Z.land i 0xFF)) ;;
  q <~ PyNum.int
         (PyNum.truediv fi (PyNum.sub fi limit (Int integral))
                           (Float (PyNum.quarter fi))) ;;
  let frac_normal := Z.land q 0x03 in
  Ok [ store_byte (Z.lor sign (Z.shiftr integral 4));
       store_byte (Z.lor (Z.shiftl integral 4) (Z.shiftl frac_normal 2)) ].

(** Lines 282-289 of [get_temeperature]: the value computed from the two
    bytes of the temperature register. *)
Definition temperature_of (fi : float_impl) (buf : list Z) : number :=
  let sign := Z.land (nth 0 buf 0) 0x10 in
  let upper := Z.land (Z.shiftl (nth 0 buf 0) 4) 0xFF in
  let lower := PyNum.truediv fi (Int (Z.land (nth 1 buf 0) 0xFF)) (Int 16) in
  if py_bool sign
  then PyNum.sub fi (PyNum.add fi (Int upper) lower) (Int 256)
  else PyNum.add fi (Int upper) lower.

(** Lines 38-41 of [__init__]: the bus address of the session.  [if addr:]
    takes [None] and [0] alike for the address built from the pins. *)
Definition session_addr (addr : option Z) (A0 A1 A2 : bool) : Z :=
  let pins := Z.lor (Z.lor (Z.lor BASE_ADDR (Z.shiftl (b2z A2) 2))
                           (Z.shiftl (b2z A1) 1)) (b2z A0) in
  match addr with
  | Some a => if a =? 0 then pins else a
  | None => pins
  end.

(** ** The methods of [MCP9808] *)

Section Driver.
Context {Dev : Type} `{I2C Dev}.
Variable fi : float_impl.

(** [__debug]: the condition reads the attribute [__debug], not
    [__debug_bit]. *)
Definition debug (self : mcp9808) (text : message) : M Dev unit :=
  match getattr self "__debug" with
  | Some o => when (py_eq o (OBool true)) (print text)
  | None => raise AttributeError
  end.

Definition check_device (self : mcp9808) : M Dev mcp9808 :=
  mfr <- i2c_readfrom_mem (addr self) REG_MFR 2 ;;
  let self := {| debug_bit := debug_bit self; addr := addr self;
                 mfr_id := mfr; dev_id := dev_id self; cfg := cfg self |} in
  if negb (bytes_eqb mfr [0x00; 0x54])
  then raise (Exception (InvalidManufacturerID mfr))
  else
    did <- i2c_readfrom_mem (addr self) REG_DEV 2 ;;
    let self := {| debug_bit := debug_bit self; addr := addr self;
                   mfr_id := mfr_id self; dev_id := did; cfg := cfg self |} in
    if negb (nth 0 did 0 =? 4)
    then raise (Exception (InvalidDeviceID (nth 0 did 0)))
    else
      when (negb (nth 1 did 0 =? 0)) (debug self (WarnRevision (nth 1 did 0))) ;;;
      ret self.

Definition get_config (self : mcp9808) : M Dev mcp9808 :=
  buf <- i2c_readfrom_mem (addr self) REG_CFG 2 ;;
  ret (with_cfg self (unpack_config buf)).

(** The attributes of the configuration do not exist before the first
    [__get_config]; the record holds zeros there until then. *)
Definition unset_config : config :=
  {| hyst_mode := 0; shdn := false; crit_lock := false;
     window_lock := false; irq_clear_bit := false; alert := false;
     alert_ctrl := false; alert_sel := false; alert_pol := false;
     alert_mode := false |}.

(** [__init__]; the bus is the one of the world. *)
Definition init (addr : option Z) (A0 A1 A2 debug : bool) : M Dev mcp9808 :=
  let self := {| debug_bit := debug; addr := session_addr addr A0 A1 A2;
                 mfr_id := []; dev_id := []; cfg := unset_config |} in
  self <- check_device self ;;
  get_config self.

Definition set_config (self : mcp9808) (a : config_args) : M Dev mcp9808 :=
  r <- lift (requested_config (cfg self) a) ;;
  i2c_writeto_mem (addr self) REG_CFG (pack_config r) ;;;
  self <- get_config self ;;
  let c := cfg self in
  when (negb (hyst_mode c =? hyst_mode r))
       (debug self (WarnHysteresis (hyst_mode r) (hyst_mode c))) ;;;
  when (negb (Bool.eqb (shdn c) (shdn r)))
       (debug self (WarnShutdown (shdn r) (shdn c))) ;;;
  when (negb (Bool.eqb (crit_lock c) (crit_lock r)))
       (debug self (WarnCritLock (crit_lock r) (crit_lock c))) ;;;
  when (irq_clear_bit c) (debug self WarnIrqClear) ;;;
  when (negb (Bool.eqb (window_lock c) (window_lock r)))
       (debug self (WarnWindowLock (window_lock r) (window_lock c))) ;;;
  when (negb (Bool.eqb (alert_ctrl c) (alert_ctrl r)))
       (debug self (WarnAlertCtrl (alert_ctrl r) (alert_ctrl c))) ;;;
  when (negb (Bool.eqb (alert_sel c) (alert_sel r)))
       (debug self (WarnAlertSel (alert_sel r) (alert_sel c))) ;;;
  when (negb (Bool.eqb (alert_pol c) (alert_pol r)))
       (debug self (WarnAlertPol (alert_pol r) (alert_pol c))) ;;;
  when (negb (Bool.eqb (alert_mode c) (alert_mode r)))
       (debug self (WarnAlertMode (alert_mode r) (alert_mode c))) ;;;
  ret self.

Definition set_alert_limit (self : mcp9808) (limit : pyval) (register : Z)
  : M Dev unit :=
  match limit with
  | PNum n =>
      if PyNum.ltb fi n (Int (-128)) || PyNum.gtb fi n (Int 127)
      then raise ValueError
      else
        when (PyNum.ltb fi n (Int (-20)) || PyNum.gtb fi n (Int 100))
             (debug self WarnOperationalRange) ;;;
        buf <- lift (alert_limit_buf fi n) ;;
        i2c_writeto_mem (addr self) register buf ;;;
        check <- i2c_readfrom_mem (addr self) register 2 ;;
        when (negb (bytes_eqb check buf)) (debug self (WarnAlertLimit buf check))
  | _ => raise TypeError
  end.

Definition set_hysteresis_mode (self : mcp9808) (hyst_mode : Z) :=
  set_config self
    {| arg_hyst_mode := Some hyst_mode; arg_shdn := PNone;
       arg_crit_lock := PNone; arg_window_lock := PNone;
       arg_irq_clear_bit := PBool false; arg_alert_ctrl := PNone;
       arg_alert_sel := PNone; arg_alert_pol := PNone;
       arg_alert_mode := PNone |}.

(** [not wake] is a bool whatever [wake] is; [wake] here is its truth
    value.  The same for [unlock] and [disable] below. *)
Definition shutdown (self : mcp9808) (wake : bool) :=
  set_config self
    {| arg_hyst_mode := None; arg_shdn := PBool (negb wake);
       arg_crit_lock := PNone; arg_window_lock := PNone;
       arg_irq_clear_bit := PBool false; arg_alert_ctrl := PNone;
       arg_alert_sel := PNone; arg_alert_pol := PNone;
       arg_alert_mode := PNone |}.

Definition lock_crit_limit (self : mcp9808) (unlock : bool) :=
  set_config self
    {| arg_hyst_mode := None; arg_shdn := PNone;
       arg_crit_lock := PBool (negb unlock); arg_window_lock := PNone;
       arg_irq_clear_bit := PBool false; arg_alert_ctrl := PNone;
       arg_alert_sel := PNone; arg_alert_pol := PNone;
       arg_alert_mode := PNone |}.

Definition lock_window_limit (self : mcp9808) (unlock : bool) :=
  set_config self
    {| arg_hyst_mode := None; arg_shdn := PNone; arg_crit_lock := PNone;
       arg_window_lock := PBool (negb unlock);
       arg_irq_clear_bit := PBool false; arg_alert_ctrl := PNone;
       arg_alert_sel := PNone; arg_alert_pol := PNone;
       arg_alert_mode := PNone |}.

Definition irq_clear (self : mcp9808) :=
  set_config self
    {| arg_hyst_mode := None; arg_shdn := PNone; arg_crit_lock := PNone;
       arg_window_lock := PNone; arg_irq_clear_bit := PBool true;
       arg_alert_ctrl := PNone; arg_alert_sel := PNone;
       arg_alert_pol := PNone; arg_alert_mode := PNone |}.

Definition get_alert_status (self : mcp9808) : M Dev (mcp9808 * bool) :=
  self <- get_config self ;;
  ret (self, alert (cfg self)).

Definition enable_alert (self : mcp9808) (disable : bool) :=
  set_config self
    {| arg_hyst_mode := None; arg_shdn := PNone; arg_crit_lock := PNone;
       arg_window_lock := PNone; arg_irq_clear_bit := PBool false;
       arg_alert_ctrl := PBool (negb disable); arg_alert_sel := PNone;
       arg_alert_pol := PNone; arg_alert_mode := PNone |}.

Definition set_alert_threshold (self : mcp9808) (only_crit : pyval) :=
  set_config self
    {| arg_hyst_mode := None; arg_shdn := PNone; arg_crit_lock := PNone;
       arg_window_lock := PNone; arg_irq_clear_bit := PBool false;
       arg_alert_ctrl := PNone; arg_alert_sel := only_crit;
       arg_alert_pol := PNone; arg_alert_mode := PNone |}.

Definition set_alert_polarity (self : mcp9808) (active_high : pyval) :=
  set_config self
    {| arg_hyst_mode := None; arg_shdn := PNone; arg_crit_lock := PNone;
       arg_window_lock := PNone; arg_irq_clear_bit := PBool false;
       arg_alert_ctrl := PNone; arg_alert_sel := PNone;
       arg_alert_pol := active_high; arg_alert_mode := PNone |}.

Definition set_alert_mode (self : mcp9808) (irq : pyval) :=
  set_config self
    {| arg_hyst_mode := None; arg_shdn := PNone; arg_crit_lock := PNone;
       arg_window_lock := PNone; arg_irq_clear_bit := PBool false;
       arg_alert_ctrl := PNone; arg_alert_sel := PNone;
       arg_alert_pol := PNone; arg_alert_mode := irq |}.

Definition set_alert_upper_limit (self : mcp9808) (upper_limit : pyval) :=
  set_alert_limit self upper_limit REG_ATU.

Definition set_alert_lower_limit (self : mcp9808) (lower_limit : pyval) :=
  set_alert_limit self lower_limit REG_ATL.

Definition set_alert_crit_limit (self : mcp9808) (crit_limit : pyval) :=
  set_alert_limit self crit_limit REG_ATC.

Definition get_temeperature (self : mcp9808) : M Dev number :=
  buf <- i2c_readfrom_mem (addr self) REG_TEM 2 ;;
  ret (temperature_of fi buf).

Definition get_alert_triggers (self : mcp9808) : M Dev (bool * bool * bool) :=
  buf <- i2c_readfrom_mem (addr self) REG_TEM 2 ;;
  let ta_tcrit := py_bool (Z.land (nth 0 buf 0) 0x80) in
  let ta_tupper := py_bool (Z.land (nth 0 buf 0) 0x40) in
  let ta_tlower := py_bool (Z.land (nth 0 buf 0) 0x20) in
  ret (ta_tcrit, ta_tupper, ta_tlower).

(** The argument carries no annotation: the membership test compares it
    with the four levels by [==], and [resolution & 0x03] is evaluated
    before the bus is touched. *)
Definition set_resolution (self : mcp9808) (resolution : pyval) : M Dev unit :=
  if negb (existsb (equals_int fi resolution)
                   [RES_0_5; RES_0_25; RES_0_125; RES_0_0625])
  then raise ValueError
  else
    masked <- lift (and_int resolution 0x03) ;;
    let buf := [store_byte (Z.lor 0 masked)] in
    i2c_writeto_mem (addr self) REG_RES buf ;;;
    check <- i2c_readfrom_mem (addr self) REG_RES 1 ;;
    when (negb (bytes_eqb check buf))
         (debug self (WarnResolution resolution (nth 0 check 0))).
End Driver.

(** ** A simulated sensor

    A device model for the concrete runs below: a register file behind one
    bus address.  The two lock bits of the configuration register are
    latches; once one is set the other configuration bits are frozen and
    the locked limit registers refuse writes.  The identity and temperature
    registers are read-only, the interrupt-clear bit reads back as zero and
    the alert status bit is the device's own.  Transactions to another
    address fail. *)
Module Sim.
Record sensor := {
  bus_addr : Z;
  regs : Z -> list Z
}.

Definition set_reg (s : sensor) (r : Z) (v : list Z) : sensor :=
  {| bus_addr := bus_addr s;
     regs := fun r' => if r' =? r then v else regs s r' |}.

Definition cfg_lo (s : sensor) : Z := nth 1 (regs s REG_CFG) 0.

Definition crit_locked (s : sensor) : bool := Z.testbit (cfg_lo s) 7.
Definition window_locked (s : sensor) : bool := Z.testbit (cfg_lo s) 6.

Definition read (s : sensor) (a r : Z) (n : nat) : option (list Z) * sensor :=
  if a =? bus_addr s
  then (Some (map (fun b => b mod 256) (firstn n (regs s r ++ repeat 0 n))), s)
  else (None, s).

Definition write (s : sensor) (a r : Z) (buf : list Z) : option unit * sensor :=
  if negb (a =? bus_addr s) then (None, s)
  else if r =? REG_CFG then
    let b0 := nth 0 buf 0 in
    let b1 := nth 1 buf 0 in
    let latched := Z.land (cfg_lo s) 0xC0 in
    let status := Z.land (cfg_lo s) 0x10 in
    if latched =? 0
    then (Some tt, set_reg s REG_CFG [Z.land b0 0x07; Z.lor (Z.land b1 0xCF) status])
    else (Some tt, set_reg s REG_CFG
                     [nth 0 (regs s REG_CFG) 0; Z.lor (cfg_lo s) (Z.land b1 0xC0)])
  else if (r =? REG_ATC) && crit_locked s then (Some tt, s)
  else if ((r =? REG_ATU) || (r =? REG_ATL)) && window_locked s then (Some tt, s)
  else if (r =? REG_TEM) || (r =? REG_MFR) || (r =? REG_DEV) then (Some tt, s)
  else (Some tt, set_reg s r buf).

#[global] Instance sensor_i2c : I2C sensor.
Proof.
  refine {| readfrom_mem := read; writeto_mem := write |}.
  intros d a r n bs d' Hr. unfold read in Hr.
  destruct (a =? bus_addr d); inversion Hr; subst; clear Hr.
  split.
  - rewrite length_map, firstn_length_le; [reflexivity|].
    rewrite length_app, repeat_length. lia.
  - apply Forall_forall. intros x Hx. apply in_map_iff in Hx.
    destruct Hx as [y [<- _]]. unfold is_byte.
    apply Z.mod_pos_bound. lia.
Defined.

(** The register file after power-up, with 25.25 degrees in the
    temperature register. *)
Definition power_up_regs (r : Z) : list Z :=
  if r =? REG_TEM then [0xC1; 0x94]
  else if r =? REG_MFR then [0x00; 0x54]
  else if r =? REG_DEV then [0x04; 0x00]
  else if r =? REG_RES then [0x03]
  else [0x00; 0x00].

Definition power_up : sensor :=
  {| bus_addr := BASE_ADDR; regs := power_up_regs |}.

Definition boot (s : sensor) : world sensor :=
  {| dev := s; bus_log := []; stdout := [] |}.
End Sim.

(** ** Vocabulary of the statements *)

(** The events a run added to the bus log. *)
Definition new_events {Dev} (w w' : world Dev) : list bus_event :=
  skipn (List.length (bus_log w)) (bus_log w').

(** The payloads of the writes among some events, with their registers. *)
Definition writes_of (evs : list bus_event) : list (Z * list Z) :=
  flat_map (fun ev => match ev with
                      | BusWrite _ r data _ => [(r, data)]
                      | BusRead _ _ _ _ => []
                      end) evs.

(** Bit 5 of the second byte of each write: the interrupt-clear bit of a
    configuration write. *)
Definition irq_bits_written (evs : list bus_event) : list bool :=
  map (fun rd => Z.testbit (nth 1 (snd rd) 0) 5) (writes_of evs).

(** What [__set_config] checks of the hysteresis mode. *)
Definition valid_hyst (h : Z) : bool :=
  existsb (Z.eqb h) [HYST_00; HYST_15; HYST_30; HYST_60].

(** The convenience setters that go through [__set_config] and leave
    [irq_clear_bit] at its default. *)
Inductive setter :=
| SetHysteresisMode (hyst_mode : Z)
| Shutdown (wake : bool)
| LockCritLimit (unlock : bool)
| LockWindowLimit (unlock : bool)
| EnableAlert (disable : bool)
| SetAlertThreshold (only_crit : pyval)
| SetAlertPolarity (active_high : pyval)
| SetAlertMode (irq : pyval).

Definition call_setter {Dev} `{I2C Dev} (self : mcp9808) (s : setter)
  : M Dev mcp9808 :=
  match s with
  | SetHysteresisMode h => set_hysteresis_mode self h
  | Shutdown wake => shutdown self wake
  | LockCritLimit unlock => lock_crit_limit self unlock
  | LockWindowLimit unlock => lock_window_limit self unlock
  | EnableAlert disable => enable_alert self disable
  | SetAlertThreshold v => set_alert_threshold self v
  | SetAlertPolarity v => set_alert_polarity self v
  | SetAlertMode v => set_alert_mode self v
  end.

(** The settable fields of the configuration, the interrupt-clear bit
    apart. *)
Inductive field :=
| FHystMode | FShdn | FCritLock | FWindowLock
| FAlertCtrl | FAlertSel | FAlertPol | FAlertMode.

Definition get_field (f : field) (c : config) : Z :=
  match f with
  | FHystMode => hyst_mode c
  | FShdn => b2z (shdn c)
  | FCritLock => b2z (crit_lock c)
  | FWindowLock => b2z (window_lock c)
  | FAlertCtrl => b2z (alert_ctrl c)
  | FAlertSel => b2z (alert_sel c)
  | FAlertPol => b2z (alert_pol c)
  | FAlertMode => b2z (alert_mode c)
  end.

(** The field a setter overrides. *)
Definition target (s : setter) : field :=
  match s with
  | SetHysteresisMode _ => FHystMode
  | Shutdown _ => FShdn
  | LockCritLimit _ => FCritLock
  | LockWindowLimit _ => FWindowLock
  | EnableAlert _ => FAlertCtrl
  | SetAlertThreshold _ => FAlertSel
  | SetAlertPolarity _ => FAlertPol
  | SetAlertMode _ => FAlertMode
  end.

(** The three alert limits and their registers. *)
Inductive limit_kind := Upper | Lower | Crit.

Definition limit_register (k : limit_kind) : Z :=
  match k with Upper => REG_ATU | Lower => REG_ATL | Crit => REG_ATC end.

Definition call_set_limit {Dev} `{I2C Dev} (fi : float_impl)
  (self : mcp9808) (k : limit_kind) (limit : pyval) : M Dev unit :=
  match k with
  | Upper => set_alert_upper_limit fi self limit
  | Lower => set_alert_lower_limit fi self limit
  | Crit => set_alert_crit_limit fi self limit
  end.

(** [-128 <= n <= 127] for a number the float format can hold. *)
Definition in_range (fi : float_impl) (n : number) : bool :=
  PyNum.valid fi n && PyNum.leb fi (Int (-128)) n && PyNum.leb fi n (Int 127).

(** [n < -128 or n > 127] *)
Definition out_of_range (fi : float_impl) (n : number) : bool :=
  PyNum.ltb fi n (Int (-128)) || PyNum.gtb fi n (Int 127).

(** ** Concrete configurations and scenarios *)

(** A configuration with the interrupt-clear bit requested, as [irq_clear]
    sends it. *)
Definition cfg_irq_requested : config :=
  {| hyst_mode := HYST_00; shdn := false; crit_lock := false;
     window_lock := false; irq_clear_bit := true; alert := false;
     alert_ctrl := false; alert_sel := false; alert_pol := false;
     alert_mode := false |}.

Definition cfg_sample : config :=
  {| hyst_mode := HYST_30; shdn := true; crit_lock := false;
     window_lock := true; irq_clear_bit := true; alert := true;
     alert_ctrl := true; alert_sel := false; alert_pol := true;
     alert_mode := false |}.

(** A step of the environment between two calls: the device changes on
    its own. *)
Definition environment {Dev} (f : Dev -> Dev) : M Dev unit :=
  fun w => (Ok tt, {| dev := f (dev w); bus_log := bus_log w;
                      stdout := stdout w |}).

(** The sensor asserts its alert output: the status bit of the
    configuration register goes up. *)
Definition alert_asserted (s : Sim.sensor) : Sim.sensor :=
  Sim.set_reg s REG_CFG
    [nth 0 (Sim.regs s REG_CFG) 0; Z.lor (Sim.cfg_lo s) 0x10].

(** A session is opened on a sensor fresh from power-up, the sensor then
    asserts its alert output, and the hysteresis mode is set.  The result
    is the cached configuration before and after that call. *)
Definition scenario_alert_rises : M Sim.sensor (config * config) :=
  self <- init None false false false false ;;
  environment alert_asserted ;;;
  self' <- set_hysteresis_mode self HYST_15 ;;
  ret (cfg self, cfg self').

(** A session object as [__init__] leaves it on a sensor at the base
    address, here with some configuration cached. *)
Definition session_of (debug : bool) (c : config) : mcp9808 :=
  {| debug_bit := debug; addr := BASE_ADDR; mfr_id := [0x00; 0x54];
     dev_id := [0x04; 0x00]; cfg := c |}.

(** A call stopped by the validation of its arguments. *)
Definition rejected {A} (o : outcome A) : bool :=
  match o with
  | Raise ValueError | Raise TypeError => true
  | _ => false
  end.

(** A session is opened on a sensor fresh from power-up, the critical
    limit is locked, and a critical limit of 30 degrees is then requested;
    the sensor keeps the old limit. *)
Definition scenario_locked_crit_limit (fi : float_impl) (debug : bool)
  : M Sim.sensor unit :=
  self <- init None false false false debug ;;
  self <- lock_crit_limit self false ;;
  set_alert_crit_limit fi self (PNum (Int 30)).

(** The same with every kind of write the sensor refuses once locked: the
    alert output cannot be enabled, the critical limit cannot be moved. *)
Definition scenario_locked_refusals (fi : float_impl) (debug : bool)
  : M Sim.sensor mcp9808 :=
  self <- init None false false false debug ;;
  self <- lock_crit_limit self false ;;
  self <- enable_alert self false ;;
  set_alert_crit_limit fi self (PNum (Int 30)) ;;;
  ret self.

(** A sensor of a later hardware revision. *)
Definition revision_1 : Sim.sensor :=
  Sim.set_reg Sim.power_up REG_DEV [0x04; 0x01].

(** Something else answering at the sensor's address. *)
Definition stranger : Sim.sensor :=
  Sim.set_reg Sim.power_up REG_MFR [0x00; 0x55].

(** A bus on which nothing answers at the address of the session: the
    sensor is strapped to another one. *)
Definition absent : Sim.sensor :=
  {| Sim.bus_addr := 0x19; Sim.regs := Sim.power_up_regs |}.

(** The integers from 0 up to [n], excluded. *)
Definition below (n : nat) : list Z := map Z.of_nat (seq 0 n).

(** What C5 asks of the temperature decoded from two bytes: a float of
    the format, in [-256, 0) when bit 4 of the first byte is set and in
    [0, 256) when it is clear. *)
Definition temperature_in_range (fi : float_impl) (b0 b1 : Z) : bool :=
  let t := temperature_of fi [b0; b1] in
  PyNum.valid fi t &&
  if Z.testbit b0 4
  then PyNum.leb fi (Int (-256)) t && PyNum.ltb fi t (Int 0)
  else PyNum.leb fi (Int 0) t && PyNum.ltb fi t (Int 256).

(** The bits of the first byte that the decoding looks at. *)
Definition temperature_bits_agree (b0 : Z) : bool :=
  (Z.land (Z.land b0 0x1F) 0x10 =? Z.land b0 0x10) &&
  (Z.land (Z.shiftl (Z.land b0 0x1F) 4) 0xFF =? Z.land (Z.shiftl b0 4) 0xFF) &&
  Bool.eqb (Z.testbit (Z.land b0 0x1F) 4) (Z.testbit b0 4).

(** A float that is a zero or a finite number of magnitude below
    [2 ^ K]: what [int] accepts, with room to spare before overflow. *)
Definition fbounded (K : Z) (x : spec_float) : Prop :=
  match x with
  | S754_zero _ => True
  | S754_finite _ m e => Z.log2 (Zpos m) + e < K
  | _ => False
  end.

(** The invariant carried through rounding: a non-negative mantissa that,
    with its exponent, stays below [2 ^ K]. *)
Definition below_pow (K m e : Z) : Prop := 0 <= m /\ Z.log2 m + e < K.

(** A bus transaction that went through. *)
Definition transaction_ok (ev : bus_event) : bool :=
  match ev with
  | BusRead _ _ _ (Some _) => true
  | BusWrite _ _ _ (Some _) => true
  | _ => false
  end.

(** The literal [-0.25]. *)
Definition minus_quarter (fi : float_impl) : number :=
  Float (SFopp (PyNum.quarter fi)).

(** 25.5 degrees, as [51 / 2]. *)
Definition twenty_five_and_a_half (fi : float_impl) : number :=
  PyNum.truediv fi (Int 51) (Int 2).

(** ** Vocabulary of the further properties *)

(** What [set_resolution] checks of an [int] argument. *)
Definition valid_resolution (r : Z) : bool :=
  existsb (Z.eqb r) [RES_0_5; RES_0_25; RES_0_125; RES_0_0625].

(** A float that compares equal to one of the four levels, such as
    [1.0]. *)
Definition float_is_level (fi : float_impl) (f : spec_float) : bool :=
  existsb (fun k => SFeqb f (PyNum.float_of_int fi k))
          [RES_0_5; RES_0_25; RES_0_125; RES_0_0625].

(** What becomes of the argument of [set_resolution], by its type: the
    byte that goes to the register, or the exception raised. *)
Definition resolution_level (fi : float_impl) (v : pyval) : outcome Z :=
  match v with
  | PNum (Int r) => if valid_resolution r then Ok r else Raise ValueError
  | PBool b => Ok (b2z b)
  | PNum (Float f) =>
      if float_is_level fi f then Raise TypeError else Raise ValueError
  | PNone | PStr _ => Raise ValueError
  end.

(** The thirteen bits of a temperature or limit register read as a two's
    complement integer: bits 4..0 of the first byte, then the second
    byte. *)
Definition signed13 (b0 b1 : Z) : Z :=
  let raw := Z.land b0 0x1F * 256 + b1 in
  if raw <? 4096 then raw else raw - 8192.

(** What C5's table leaves open: the decoded temperature is the quotient
    of that integer by 16. *)
Definition temperature_exact (fi : float_impl) (b0 b1 : Z) : bool :=
  match temperature_of fi [b0; b1],
        PyNum.truediv fi (Int (signed13 b0 b1)) (Int 16) with
  | Float x, Float y =>
      match x, y with
      | S754_zero s, S754_zero s' => Bool.eqb s s'
      | S754_finite s m e, S754_finite s' m' e' =>
          Bool.eqb s s' && Pos.eqb m m' && Z.eqb e e'
      | _, _ => false
      end
  | _, _ => false
  end.

(** Re-packing an unpacked byte pair keeps the settable bits. *)
Definition repack_agrees (b : Z) : bool :=
  (nth 0 (pack_config (unpack_config [b; 0])) 0 =? Z.land b 0x07) &&
  (nth 1 (pack_config (unpack_config [0; b])) 0 =? Z.land b 0xEF).

(** The three flag tests of [get_alert_triggers] against the bits
    they read. *)
Definition trigger_bits_agree (b0 : Z) : bool :=
  Bool.eqb (py_bool (Z.land b0 0x80)) (Z.testbit b0 7) &&
  Bool.eqb (py_bool (Z.land b0 0x40)) (Z.testbit b0 6) &&
  Bool.eqb (py_bool (Z.land b0 0x20)) (Z.testbit b0 5).

(** Two numbers that are the same value of the same kind. *)
Definition number_same (a b : number) : bool :=
  match a, b with
  | Int x, Int y => x =? y
  | Float x, Float y =>
      match x, y with
      | S754_zero s, S754_zero s' => Bool.eqb s s'
      | S754_infinity s, S754_infinity s' => Bool.eqb s s'
      | S754_nan, S754_nan => true
      | S754_finite s m e, S754_finite s' m' e' =>
          Bool.eqb s s' && Pos.eqb m m' && Z.eqb e e'
      | _, _ => false
      end
  | _, _ => false
  end.

(** The float [z / 4]: the limits on the sensor's grid of quarter
    degrees. *)
Definition quarters (fi : float_impl) (z : Z) : number :=
  PyNum.truediv fi (Int z) (Int 4).

(** What the bytes built for [z / 4] hold, in quarter degrees: below -1
    and off the whole degrees, one degree more than asked. *)
Definition held_quarters (z : Z) : Z :=
  if (z <? -4) && negb (z mod 4 =? 0) then z + 4 else z.

(** The bytes built for the limit [z / 4] are the thirteen-bit field
    [4 * held_quarters z], and [get_temeperature]'s arithmetic reads them
    back as [held_quarters z / 4]. *)
Definition quarter_limit_checked (fi : float_impl) (z : Z) : bool :=
  match alert_limit_buf fi (quarters fi z) with
  | Ok [b0; b1] =>
      (signed13 b0 b1 =? 4 * held_quarters z) &&
      number_same (temperature_of fi [b0; b1]) (quarters fi (held_quarters z))
  | _ => false
  end.

(** The same for an [int] limit [z]: the field is [16 * z] and reads back
    as the float [z]. *)
Definition int_limit_checked (fi : float_impl) (z : Z) : bool :=
  match alert_limit_buf fi (Int z) with
  | Ok [b0; b1] =>
      (signed13 b0 b1 =? 16 * z) &&
      number_same (temperature_of fi [b0; b1])
                  (Float (PyNum.float_of_int fi z))
  | _ => false
  end.

(** The integers from [lo] on, [n] of them. *)
Definition from (lo : Z) (n : nat) : list Z :=
  map (fun k => lo + Z.of_nat k) (seq 0 n).

(** The bits of a limit's two bytes that the packing leaves clear, for an
    integral part and every fraction. *)
Definition limit_bits_checked (integral : Z) : bool :=
  forallb (fun sign =>
    (Z.land (Z.lor sign (Z.shiftr integral 4)) 0xE0 =? 0) &&
    Bool.eqb (Z.testbit (Z.lor sign (Z.shiftr integral 4)) 4) (sign =? 0x10))
    [0x00; 0x10] &&
  forallb (fun frac =>
    Z.land (Z.land (Z.lor (Z.shiftl integral 4) (Z.shiftl frac 2)) 0xFF) 0x03
    =? 0) (below 4).

(** The public methods that act on an existing session. *)
Inductive operation :=
| OpSetter (s : setter)
| OpIrqClear
| OpSetLimit (k : limit_kind) (limit : pyval)
| OpSetResolution (resolution : pyval)
| OpGetAlertStatus
| OpGetTemperature
| OpGetAlertTriggers.

(** A call of one of them; the result is the session after the call, the
    value a getter returns is dropped. *)
Definition run_operation {Dev} `{I2C Dev} (fi : float_impl) (self : mcp9808)
  (op : operation) : M Dev mcp9808 :=
  match op with
  | OpSetter s => call_setter self s
  | OpIrqClear => irq_clear self
  | OpSetLimit k limit => call_set_limit fi self k limit ;;; ret self
  | OpSetResolution r => set_resolution fi self r ;;; ret self
  | OpGetAlertStatus => r <- get_alert_status self ;; ret (fst r)
  | OpGetTemperature => get_temeperature fi self ;;; ret self
  | OpGetAlertTriggers => get_alert_triggers self ;;; ret self
  end.

(** The float handed to a limit setter, if any, is a float of the
    format. *)
Definition well_formed (fi : float_impl) (op : operation) : bool :=
  match op with
  | OpSetLimit _ (PNum n) => PyNum.valid fi n
  | _ => true
  end.

(** The exceptions the methods are written to raise: the two validation
    errors and the bus's own. *)
Definition foreseen {A} (o : outcome A) : bool :=
  match o with
  | Ok _ | Raise ValueError | Raise TypeError | Raise OSError => true
  | _ => false
  end.

Definition is_read (ev : bus_event) : bool :=
  match ev with
  | BusRead _ _ _ _ => true
  | BusWrite _ _ _ _ => false
  end.

(** The registers the driver writes. *)
Definition writable_register (r : Z) : bool :=
  existsb (Z.eqb r) [REG_CFG; REG_ATU; REG_ATL; REG_ATC; REG_RES].

(** A transaction at the address [a], on a register of the map 0x01..0x08
    and, for a write, on one of the writable ones. *)
Definition wellplaced (a : Z) (ev : bus_event) : bool :=
  match ev with
  | BusRead a' r _ _ => (a' =? a) && (1 <=? r) && (r <=? 8)
  | BusWrite a' r _ _ => (a' =? a) && writable_register r
  end.

(** Every event a computation adds to the bus log satisfies [P]. *)
Definition appends {Dev A} (P : bus_event -> bool) (c : M Dev A) : Prop :=
  forall w, exists evs,
    bus_log (snd (c w)) = bus_log w ++ evs /\ forallb P evs = true.

(** An argument a setter's signature announces: a hysteresis level, a
    bool or [None]. *)
Definition announced (s : setter) : bool :=
  match s with
  | SetHysteresisMode h => valid_hyst h
  | SetAlertThreshold v | SetAlertPolarity v | SetAlertMode v =>
      match v with PBool _ | PNone => true | _ => false end
  | _ => true
  end.

(** A setter call that gets past the validation of [__set_config]: its
    argument is as announced and the hysteresis mode checked, the
    argument's own or else the cached one, is a level. *)
Definition let_through (c : config) (s : setter) : bool :=
  match s with
  | SetHysteresisMode h => valid_hyst h
  | _ => valid_hyst (hyst_mode c) && announced s
  end.

(** The value a setter asks for its field: [shutdown], the two locks and
    [enable_alert] negate their argument, the others pass it on, and
    [None] stands for the cached value. *)
Definition requested_value (s : setter) (c : config) : Z :=
  match s with
  | SetHysteresisMode h => h
  | Shutdown wake => b2z (negb wake)
  | LockCritLimit unlock => b2z (negb unlock)
  | LockWindowLimit unlock => b2z (negb unlock)
  | EnableAlert disable => b2z (negb disable)
  | SetAlertThreshold v =>
      match v with PBool b => b2z b | _ => b2z (alert_sel c) end
  | SetAlertPolarity v =>
      match v with PBool b => b2z b | _ => b2z (alert_pol c) end
  | SetAlertMode v =>
      match v with PBool b => b2z b | _ => b2z (alert_mode c) end
  end.

(** The methods that end by reading the configuration register into the
    session. *)
Definition refreshes (op : operation) : bool :=
  match op with
  | OpSetter _ | OpIrqClear | OpGetAlertStatus => true
  | _ => false
  end.

(** * Properties *)

(** ** Diagnostics: what [__debug] does *)

(** [__debug] prints nothing and raises nothing, whatever the flag the
    session was built with: the attribute it tests is the method itself. *)
Lemma debug_silent {Dev} (self : mcp9808) (text : message) (w : world Dev) :
  debug self text w = (Ok tt, w).
Proof. reflexivity. Qed.

Lemma when_debug_silent {Dev} (b : bool) (self : mcp9808) (text : message)
  (w : world Dev) :
  when b (debug self text) w = (Ok tt, w).
Proof. destruct b; reflexivity. Qed.

(** ** Symbolic runs of the methods *)

Section Runs.
Context {Dev : Type} `{I2C Dev}.

Lemma get_config_run (self : mcp9808) (w : world Dev) :
  get_config self w =
  let '(res, d) := readfrom_mem (dev w) (addr self) REG_CFG 2 in
  let w' := {| dev := d;
               bus_log := bus_log w ++ [BusRead (addr self) REG_CFG 2 res];
               stdout := stdout w |} in
  match res with
  | Some bs => (Ok (with_cfg self (unpack_config bs)), w')
  | None => (Raise OSError, w')
  end.
Proof.
  unfold get_config, bind, i2c_readfrom_mem.
  destruct (readfrom_mem (dev w) (addr self) REG_CFG 2) as [[bs|] d]; reflexivity.
Qed.

Lemma set_config_run (self : mcp9808) (a : config_args) (w : world Dev) :
  set_config self a w =
  match requested_config (cfg self) a with
  | Raise e => (Raise e, w)
  | Ok r =>
      let '(res, d1) := writeto_mem (dev w) (addr self) REG_CFG (pack_config r) in
      let w1 := {| dev := d1;
                   bus_log := bus_log w ++
                              [BusWrite (addr self) REG_CFG (pack_config r) res];
                   stdout := stdout w |} in
      match res with
      | None => (Raise OSError, w1)
      | Some _ =>
          let '(res2, d2) := readfrom_mem d1 (addr self) REG_CFG 2 in
          let w2 := {| dev := d2;
                       bus_log := bus_log w1 ++ [BusRead (addr self) REG_CFG 2 res2];
                       stdout := stdout w |} in
          match res2 with
          | None => (Raise OSError, w2)
          | Some bs => (Ok (with_cfg self (unpack_config bs)), w2)
          end
      end
  end.
Proof.
  unfold set_config, bind at 1, lift.
  destruct (requested_config (cfg self) a) as [r|e]; [|reflexivity].
  unfold bind at 1, i2c_writeto_mem. cbn [dev bus_log stdout].
  destruct (writeto_mem (dev w) (addr self) REG_CFG (pack_config r)) as [[u|] d1];
    [|reflexivity].
  unfold bind at 1. rewrite get_config_run. cbn [dev bus_log stdout].
  destruct (readfrom_mem d1 (addr self) REG_CFG 2) as [[bs|] d2]; [|reflexivity].
  unfold bind. rewrite !when_debug_silent. reflexivity.
Qed.
End Runs.

(** ** The configuration codec *)

Lemma valid_hyst_cases (h : Z) :
  valid_hyst h = true -> h = 0 \/ h = 1 \/ h = 2 \/ h = 3.
Proof.
  unfold valid_hyst, existsb, HYST_00, HYST_15, HYST_30, HYST_60.
  rewrite !orb_true_iff, !Z.eqb_eq. intuition congruence.
Qed.

(** Unpacking what was packed gives every argument of the packing back;
    the [alert] bit, which is not packed, comes back clear. *)
Lemma unpack_pack_config (c : config) :
  valid_hyst (hyst_mode c) = true ->
  unpack_config (pack_config c) =
  {| hyst_mode := hyst_mode c; shdn := shdn c; crit_lock := crit_lock c;
     window_lock := window_lock c; irq_clear_bit := irq_clear_bit c;
     alert := false; alert_ctrl := alert_ctrl c; alert_sel := alert_sel c;
     alert_pol := alert_pol c; alert_mode := alert_mode c |}.
Proof.
  destruct c as [h s cl wl ic al ac asel ap am]. cbn [hyst_mode].
  intro Hh. apply valid_hyst_cases in Hh.
  destruct Hh as [-> | [-> | [-> | ->]]];
    destruct s, cl, wl, ic, ac, asel, ap, am; reflexivity.
Qed.

Lemma pack_config_irq_bit (c : config) :
  Z.testbit (nth 1 (pack_config c) 0) 5 = irq_clear_bit c.
Proof.
  destruct c as [h s cl wl ic al ac asel ap am].
  destruct cl, wl, ic, ac, asel, ap, am; reflexivity.
Qed.

(** C3, as stated, fails: a valid configuration with the interrupt-clear
    bit set packs to bytes that unpack with the interrupt-clear bit set,
    not false. *)
Lemma roundtrip_irq_clear_counterexample :
  valid_hyst (hyst_mode cfg_irq_requested) = true /\
  pack_config cfg_irq_requested = [0x00; 0x20] /\
  irq_clear_bit (unpack_config (pack_config cfg_irq_requested)) = true.
Proof. repeat split. Qed.

(** C3, amended: for every configuration the driver accepts (hysteresis
    mode among the four levels), packing it as [__set_config] does and
    unpacking the two bytes as [__get_config] does reproduces every
    settable field, the interrupt-clear bit included (it decodes to what was
    encoded); the read-only alert status bit, which the packing does not
    carry, decodes to false. *)
Theorem config_roundtrip (c : config) :
  valid_hyst (hyst_mode c) = true ->
  let c' := unpack_config (pack_config c) in
  hyst_mode c' = hyst_mode c /\
  shdn c' = shdn c /\
  crit_lock c' = crit_lock c /\
  window_lock c' = window_lock c /\
  irq_clear_bit c' = irq_clear_bit c /\
  alert c' = false /\
  alert_ctrl c' = alert_ctrl c /\
  alert_sel c' = alert_sel c /\
  alert_pol c' = alert_pol c /\
  alert_mode c' = alert_mode c.
Proof.
  intros Hh c'. subst c'. rewrite (unpack_pack_config c Hh).
  cbn. repeat split.
Qed.

Lemma config_roundtrip_witness :
  valid_hyst (hyst_mode cfg_sample) = true /\
  let c' := unpack_config (pack_config cfg_sample) in
  hyst_mode c' = HYST_30 /\ shdn c' = true /\ crit_lock c' = false /\
  window_lock c' = true /\ irq_clear_bit c' = true /\ alert c' = false /\
  alert_ctrl c' = true /\ alert_sel c' = false /\ alert_pol c' = true /\
  alert_mode c' = false.
Proof.
  split; [reflexivity | exact (config_roundtrip cfg_sample eq_refl)].
Defined.

(** ** Partial updates through [__set_config] *)

Lemma new_events_app {Dev} (w w' : world Dev) (evs : list bus_event) :
  bus_log w' = bus_log w ++ evs -> new_events w w' = evs.
Proof.
  unfold new_events. intros ->.
  rewrite skipn_app, skipn_all, Nat.sub_diag. reflexivity.
Qed.

(** What the defaults and the validation of [__set_config] settle on. *)
Lemma requested_config_ok (c : config) (a : config_args) (r : config) :
  requested_config c a = Ok r ->
  valid_hyst (hyst_mode r) = true /\
  hyst_mode r = match arg_hyst_mode a with None => hyst_mode c | Some h => h end /\
  expect_bool (or_cached (arg_shdn a) (shdn c)) = Ok (shdn r) /\
  expect_bool (or_cached (arg_crit_lock a) (crit_lock c)) = Ok (crit_lock r) /\
  expect_bool (or_cached (arg_window_lock a) (window_lock c)) = Ok (window_lock r) /\
  expect_bool (arg_irq_clear_bit a) = Ok (irq_clear_bit r) /\
  expect_bool (or_cached (arg_alert_ctrl a) (alert_ctrl c)) = Ok (alert_ctrl r) /\
  expect_bool (or_cached (arg_alert_sel a) (alert_sel c)) = Ok (alert_sel r) /\
  expect_bool (or_cached (arg_alert_pol a) (alert_pol c)) = Ok (alert_pol r) /\
  expect_bool (or_cached (arg_alert_mode a) (alert_mode c)) = Ok (alert_mode r).
Proof.
  unfold requested_config. fold (valid_hyst
    (match arg_hyst_mode a with None => hyst_mode c | Some h => h end)).
  destruct (valid_hyst _) eqn:Hv; cbn [negb]; [|discriminate].
  destruct (expect_bool (or_cached (arg_shdn a) (shdn c))); [|discriminate].
  destruct (expect_bool (or_cached (arg_crit_lock a) (crit_lock c))); [|discriminate].
  destruct (expect_bool (or_cached (arg_window_lock a) (window_lock c))); [|discriminate].
  destruct (expect_bool (arg_irq_clear_bit a)); [|discriminate].
  destruct (expect_bool (or_cached (arg_alert_ctrl a) (alert_ctrl c))); [|discriminate].
  destruct (expect_bool (or_cached (arg_alert_sel a) (alert_sel c))); [|discriminate].
  destruct (expect_bool (or_cached (arg_alert_pol a) (alert_pol c))); [|discriminate].
  destruct (expect_bool (or_cached (arg_alert_mode a) (alert_mode c))); [|discriminate].
  cbn [obind]. intros [= <-]. cbn. repeat split; assumption.
Qed.

Lemma expect_bool_raises (x : pyval) (e : exn) :
  expect_bool x = Raise e -> e = TypeError.
Proof. destruct x; cbn; congruence. Qed.

(** The validation stops a call with [ValueError] or [TypeError] only. *)
Lemma requested_config_raises (c : config) (a : config_args) (e : exn) :
  requested_config c a = Raise e -> e = ValueError \/ e = TypeError.
Proof.
  unfold requested_config.
  destruct (negb _); [intros [= <-]; now left|].
  repeat match goal with
         | |- obind ?o _ = _ -> _ =>
             let E := fresh "E" in
             destruct o eqn:E; cbn [obind];
             [|intros [= <-]; right; eapply expect_bool_raises; exact E]
         end.
  discriminate.
Qed.

Lemma expect_bool_cached (b b' : bool) :
  expect_bool (or_cached PNone b) = Ok b' -> b' = b.
Proof. cbn. congruence. Qed.

(** The argument record of each setter. *)
Lemma call_setter_args {Dev} `{I2C Dev} (self : mcp9808) (s : setter) :
  exists a, call_setter self s = set_config self a /\
            arg_irq_clear_bit a = PBool false /\
            (target s <> FHystMode -> arg_hyst_mode a = None) /\
            (target s <> FShdn -> arg_shdn a = PNone) /\
            (target s <> FCritLock -> arg_crit_lock a = PNone) /\
            (target s <> FWindowLock -> arg_window_lock a = PNone) /\
            (target s <> FAlertCtrl -> arg_alert_ctrl a = PNone) /\
            (target s <> FAlertSel -> arg_alert_sel a = PNone) /\
            (target s <> FAlertPol -> arg_alert_pol a = PNone) /\
            (target s <> FAlertMode -> arg_alert_mode a = PNone).
Proof.
  destruct s; eexists; (split; [reflexivity|]); cbn;
    repeat split; intros; congruence.
Qed.

(** The fields a setter does not name are settled on their cached
    values. *)
Lemma requested_frame {Dev} `{I2C Dev} (self : mcp9808) (s : setter)
  (a : config_args) (r : config) (f : field) :
  call_setter self s = set_config self a ->
  (target s <> FHystMode -> arg_hyst_mode a = None) ->
  (target s <> FShdn -> arg_shdn a = PNone) ->
  (target s <> FCritLock -> arg_crit_lock a = PNone) ->
  (target s <> FWindowLock -> arg_window_lock a = PNone) ->
  (target s <> FAlertCtrl -> arg_alert_ctrl a = PNone) ->
  (target s <> FAlertSel -> arg_alert_sel a = PNone) ->
  (target s <> FAlertPol -> arg_alert_pol a = PNone) ->
  (target s <> FAlertMode -> arg_alert_mode a = PNone) ->
  requested_config (cfg self) a = Ok r ->
  f <> target s ->
  get_field f r = get_field f (cfg self).
Proof.
  intros _ H0 H1 H2 H3 H4 H5 H6 H7 Hr Hf.
  apply requested_config_ok in Hr.
  destruct Hr as (_ & Eh & E1 & E2 & E3 & _ & E4 & E5 & E6 & E7).
  assert (Hf' : target s <> f) by congruence.
  destruct f; cbn [get_field].
  - rewrite Eh, (H0 Hf'). reflexivity.
  - rewrite (H1 Hf') in E1. f_equal. now apply expect_bool_cached.
  - rewrite (H2 Hf') in E2. f_equal. now apply expect_bool_cached.
  - rewrite (H3 Hf') in E3. f_equal. now apply expect_bool_cached.
  - rewrite (H4 Hf') in E4. f_equal. now apply expect_bool_cached.
  - rewrite (H5 Hf') in E5. f_equal. now apply expect_bool_cached.
  - rewrite (H6 Hf') in E6. f_equal. now apply expect_bool_cached.
  - rewrite (H7 Hf') in E7. f_equal. now apply expect_bool_cached.
Qed.

Lemma get_field_unpack_pack (f : field) (r : config) :
  valid_hyst (hyst_mode r) = true ->
  get_field f (unpack_config (pack_config r)) = get_field f r.
Proof.
  intro Hv. rewrite (unpack_pack_config r Hv). destruct f; reflexivity.
Qed.

(** C8, as stated, fails: the cache is refreshed from the device after the
    write, so a field can change although the call named another one.  On
    the simulated sensor, the alert status was clear when the session was
    opened and is set when the hysteresis mode is written; the cached
    [alert] goes from false to true. *)
Lemma partial_update_alert_counterexample :
  fst (scenario_alert_rises (Sim.boot Sim.power_up)) =
  Ok ({| hyst_mode := 0; shdn := false; crit_lock := false;
         window_lock := false; irq_clear_bit := false; alert := false;
         alert_ctrl := false; alert_sel := false; alert_pol := false;
         alert_mode := false |},
      {| hyst_mode := 1; shdn := false; crit_lock := false;
         window_lock := false; irq_clear_bit := false; alert := true;
         alert_ctrl := false; alert_sel := false; alert_pol := false;
         alert_mode := false |}).
Proof. reflexivity. Qed.

(** C8, amended: a setter that overrides a single field sends, for every
    other settable field, its cached value; the cache is then whatever the
    device reads back, so when the readback returns the bytes sent every
    other settable cached field is unchanged.  (The alert status bit and
    the interrupt-clear bit follow the readback.) *)
Theorem partial_update_frame {Dev} `{I2C Dev} (self : mcp9808) (s : setter)
  (w : world Dev) (self' : mcp9808) (w' : world Dev) :
  call_setter self s w = (Ok self', w') ->
  exists data back,
    new_events w w' =
      [BusWrite (addr self) REG_CFG data (Some tt);
       BusRead (addr self) REG_CFG 2 (Some back)] /\
    cfg self' = unpack_config back /\
    forall f, f <> target s ->
      get_field f (unpack_config data) = get_field f (cfg self) /\
      (back = data -> get_field f (cfg self') = get_field f (cfg self)).
Proof.
  destruct (call_setter_args self s)
    as (a & Ea & _ & H0 & H1 & H2 & H3 & H4 & H5 & H6 & H7).
  rewrite Ea, set_config_run.
  destruct (requested_config (cfg self) a) as [r|e] eqn:Hr; [|discriminate].
  destruct (writeto_mem (dev w) (addr self) REG_CFG (pack_config r))
    as [[[]|] d1]; [|discriminate].
  destruct (readfrom_mem d1 (addr self) REG_CFG 2) as [[back|] d2];
    [|discriminate].
  intros [= <- <-]. exists (pack_config r), back.
  split; [|split].
  - apply new_events_app. cbn [bus_log]. rewrite <- app_assoc. reflexivity.
  - reflexivity.
  - intros f Hf.
    assert (Hfr : get_field f (unpack_config (pack_config r))
                  = get_field f (cfg self)).
    { rewrite get_field_unpack_pack
        by (apply (requested_config_ok _ _ _ Hr)).
      eapply requested_frame; eauto. }
    split; [exact Hfr|].
    intros ->. exact Hfr.
Qed.

Lemma partial_update_frame_witness :
  let self := session_of false cfg_sample in
  let w := Sim.boot Sim.power_up in
  let run := call_setter self (SetHysteresisMode HYST_15) w in
  exists data back,
    new_events w (snd run) =
      [BusWrite BASE_ADDR REG_CFG data (Some tt);
       BusRead BASE_ADDR REG_CFG 2 (Some back)] /\
    cfg (with_cfg self (unpack_config [0x03; 0x4A])) = unpack_config back /\
    forall f, f <> FHystMode ->
      get_field f (unpack_config data) = get_field f cfg_sample /\
      (back = data ->
       get_field f (unpack_config [0x03; 0x4A]) = get_field f cfg_sample).
Proof.
  intros self w run.
  exact (partial_update_frame self (SetHysteresisMode HYST_15) w
           (with_cfg self (unpack_config [0x03; 0x4A])) (snd run) eq_refl).
Defined.

(** ** The interrupt-clear bit in configuration writes *)

Lemma unpack_config_hyst_valid (buf : list Z) :
  valid_hyst (hyst_mode (unpack_config buf)) = true.
Proof.
  cbn [unpack_config hyst_mode].
  set (x := Z.shiftr (nth 0 buf 0) 1).
  assert (Hx : 0 <= Z.land x 0x03 < 4).
  { change 0x03 with (Z.ones 2). rewrite Z.land_ones by lia.
    apply Z.mod_pos_bound. lia. }
  assert (Hc : Z.land x 0x03 = 0 \/ Z.land x 0x03 = 1 \/
               Z.land x 0x03 = 2 \/ Z.land x 0x03 = 3) by lia.
  destruct Hc as [-> | [-> | [-> | ->]]]; reflexivity.
Qed.

(** The validation of [__set_config] is all that stands between a setter
    and the bus. *)
Lemma setter_rejected_exactly {Dev} `{I2C Dev} (self : mcp9808) (s : setter)
  (w : world Dev) :
  rejected (fst (call_setter self s w)) = negb (let_through (cfg self) s).
Proof.
  assert (Hbus : forall r : config,
    rejected (fst (
      let '(res, d1) :=
        writeto_mem (dev w) (addr self) REG_CFG (pack_config r) in
      let w1 := {| dev := d1;
                   bus_log := bus_log w ++
                              [BusWrite (addr self) REG_CFG (pack_config r) res];
                   stdout := stdout w |} in
      match res with
      | None => (Raise OSError, w1)
      | Some _ =>
          let '(res2, d2) := readfrom_mem d1 (addr self) REG_CFG 2 in
          let w2 := {| dev := d2;
                       bus_log := bus_log w1 ++
                                  [BusRead (addr self) REG_CFG 2 res2];
                       stdout := stdout w |} in
          match res2 with
          | None => (Raise OSError, w2)
          | Some bs => (Ok (with_cfg self (unpack_config bs)), w2)
          end
      end)) = false).
  { intro r.
    destruct (writeto_mem _ _ _ _) as [[[]|] d1]; [|reflexivity].
    destruct (readfrom_mem _ _ _ _) as [[back|] d2]; reflexivity. }
  destruct s as [h|wake|unlock|unlock|disable|v|v|v];
    cbn [call_setter let_through announced];
    unfold set_hysteresis_mode, shutdown, lock_crit_limit, lock_window_limit,
      enable_alert, set_alert_threshold, set_alert_polarity, set_alert_mode;
    rewrite set_config_run; unfold requested_config;
    cbn [arg_hyst_mode arg_shdn arg_crit_lock arg_window_lock
         arg_irq_clear_bit arg_alert_ctrl arg_alert_sel arg_alert_pol
         arg_alert_mode or_cached expect_bool obind];
    match goal with
    | |- context [existsb (Z.eqb ?x) _] => fold (valid_hyst x)
    end;
    match goal with
    | |- context [negb (valid_hyst ?x)] => destruct (valid_hyst x)
    end;
    cbn [negb andb]; try reflexivity; try apply Hbus;
    destruct v as [| b | str | n];
    cbn [or_cached expect_bool obind negb]; try reflexivity; apply Hbus.
Qed.

Lemma irq_clear_rejected_exactly {Dev} `{I2C Dev} (self : mcp9808)
  (w : world Dev) :
  rejected (fst (irq_clear self w)) = negb (valid_hyst (hyst_mode (cfg self))).
Proof.
  unfold irq_clear. rewrite set_config_run.
  unfold requested_config.
  cbn [arg_hyst_mode arg_shdn arg_crit_lock arg_window_lock
       arg_irq_clear_bit arg_alert_ctrl arg_alert_sel arg_alert_pol
       arg_alert_mode or_cached expect_bool obind].
  fold (valid_hyst (hyst_mode (cfg self))).
  destruct (valid_hyst (hyst_mode (cfg self))); cbn [negb]; [|reflexivity].
  destruct (writeto_mem _ _ _ _) as [[[]|] d1]; [|reflexivity].
  destruct (readfrom_mem _ _ _ _) as [[back|] d2]; reflexivity.
Qed.

(** The interrupt-clear bit of the one write [__set_config] attempts is
    the argument's, and a call stopped by the validation writes nothing. *)
Lemma set_config_irq_bit {Dev} `{I2C Dev} (self : mcp9808) (a : config_args)
  (b : bool) (w : world Dev) :
  arg_irq_clear_bit a = PBool b ->
  irq_bits_written (new_events w (snd (set_config self a w))) =
  if rejected (fst (set_config self a w)) then [] else [b].
Proof.
  intro Hb. rewrite set_config_run.
  destruct (requested_config (cfg self) a) as [r|e] eqn:Hr.
  - assert (Hirq : irq_clear_bit r = b).
    { apply requested_config_ok in Hr.
      destruct Hr as (_ & _ & _ & _ & _ & Ei & _).
      rewrite Hb in Ei. cbn in Ei. congruence. }
    destruct (writeto_mem (dev w) (addr self) REG_CFG (pack_config r))
      as [[[]|] d1].
    + destruct (readfrom_mem d1 (addr self) REG_CFG 2) as [[back|] d2];
        cbn [fst snd rejected];
        (erewrite new_events_app
           by (cbn [bus_log]; rewrite <- app_assoc; reflexivity));
        cbn [irq_bits_written writes_of flat_map app map snd];
        rewrite pack_config_irq_bit, Hirq; reflexivity.
    + cbn [fst snd rejected].
      erewrite new_events_app by (cbn [bus_log]; reflexivity).
      cbn [irq_bits_written writes_of flat_map app map snd].
      rewrite pack_config_irq_bit, Hirq. reflexivity.
  - cbn [fst snd].
    erewrite new_events_app by (symmetry; apply app_nil_r).
    pose proof (requested_config_raises _ _ _ Hr) as He.
    destruct He as [-> | ->]; reflexivity.
Qed.

(** C10: the interrupt-clear bit written is never the cached one.  Take
    any session, whatever it caches (also [irq_clear_bit] cached set).  A
    convenience setter is stopped by the validation exactly when its
    argument is not as announced or the hysteresis mode checked is not a
    level; otherwise it goes through and attempts exactly one write, with
    the interrupt-clear bit (bit 5 of the second byte) clear.  [irq_clear]
    is stopped only by a cached hysteresis mode that is not a level, and
    otherwise attempts exactly one write, with that bit set.  On a session
    whose cache was unpacked from the register, as every cache the driver
    makes is, this reads: every setter with an announced argument writes
    the bit as 0, and [irq_clear] writes it as 1. *)
Theorem irq_clear_bit_only_by_irq_clear {Dev} `{I2C Dev} (self : mcp9808)
  (w : world Dev) :
  (forall s,
     rejected (fst (call_setter self s w)) = negb (let_through (cfg self) s) /\
     irq_bits_written (new_events w (snd (call_setter self s w))) =
     if let_through (cfg self) s then [false] else []) /\
  (rejected (fst (irq_clear self w)) =
   negb (valid_hyst (hyst_mode (cfg self))) /\
   irq_bits_written (new_events w (snd (irq_clear self w))) =
   if valid_hyst (hyst_mode (cfg self)) then [true] else []) /\
  (forall buf,
     let fresh := with_cfg self (unpack_config buf) in
     (forall s,
        irq_bits_written (new_events w (snd (call_setter fresh s w))) =
        if announced s then [false] else []) /\
     irq_bits_written (new_events w (snd (irq_clear fresh w))) = [true]).
Proof.
  assert (Hset : forall self' s,
    irq_bits_written (new_events w (snd (call_setter self' s w))) =
    if let_through (cfg self') s then [false] else []).
  { intros self' s.
    destruct (call_setter_args self' s) as (a & Ea & Hirq & _).
    pose proof (setter_rejected_exactly self' s w) as Hrej.
    rewrite Ea in *. rewrite (set_config_irq_bit self' a false w Hirq), Hrej.
    destruct (let_through (cfg self') s); reflexivity. }
  assert (Hclear : forall self',
    irq_bits_written (new_events w (snd (irq_clear self' w))) =
    if valid_hyst (hyst_mode (cfg self')) then [true] else []).
  { intro self'. pose proof (irq_clear_rejected_exactly self' w) as Hrej.
    unfold irq_clear in *.
    rewrite set_config_irq_bit with (b := true) by reflexivity.
    rewrite Hrej.
    destruct (valid_hyst (hyst_mode (cfg self'))); reflexivity. }
  split; [|split].
  - intro s. split; [apply setter_rejected_exactly|apply Hset].
  - split; [apply irq_clear_rejected_exactly|apply Hclear].
  - intros buf fresh. subst fresh. split.
    + intro s. rewrite Hset.
      destruct s; cbn [let_through announced with_cfg cfg];
        rewrite ?unpack_config_hyst_valid; reflexivity.
    + rewrite Hclear. cbn [with_cfg cfg].
      rewrite unpack_config_hyst_valid. reflexivity.
Qed.

(** ** Alert limits: control flow of [__set_alert_limit] *)

Section AlertLimitRuns.
Context {Dev : Type} `{I2C Dev}.
Variable fi : float_impl.

Lemma set_alert_limit_run (self : mcp9808) (n : number) (reg : Z)
  (w : world Dev) :
  set_alert_limit fi self (PNum n) reg w =
  if out_of_range fi n then (Raise ValueError, w)
  else
    match alert_limit_buf fi n with
    | Raise e => (Raise e, w)
    | Ok buf =>
        let '(res, d1) := writeto_mem (dev w) (addr self) reg buf in
        let w1 := {| dev := d1;
                     bus_log := bus_log w ++ [BusWrite (addr self) reg buf res];
                     stdout := stdout w |} in
        match res with
        | None => (Raise OSError, w1)
        | Some _ =>
            let '(res2, d2) := readfrom_mem d1 (addr self) reg 2 in
            let w2 := {| dev := d2;
                         bus_log := bus_log w1 ++ [BusRead (addr self) reg 2 res2];
                         stdout := stdout w |} in
            match res2 with
            | None => (Raise OSError, w2)
            | Some _ => (Ok tt, w2)
            end
        end
    end.
Proof.
  unfold set_alert_limit, out_of_range.
  destruct (PyNum.ltb fi n (Int (-128)) || PyNum.gtb fi n (Int 127));
    [reflexivity|].
  unfold bind at 1. rewrite when_debug_silent.
  unfold bind at 1, lift.
  destruct (alert_limit_buf fi n) as [buf|e]; [|reflexivity].
  unfold bind at 1, i2c_writeto_mem. cbn [dev bus_log stdout].
  destruct (writeto_mem (dev w) (addr self) reg buf) as [[u|] d1];
    [|reflexivity].
  unfold bind, i2c_readfrom_mem. cbn [dev bus_log stdout].
  destruct (readfrom_mem d1 (addr self) reg 2) as [[check|] d2];
    [|reflexivity].
  rewrite when_debug_silent. reflexivity.
Qed.

Lemma call_set_limit_eq (self : mcp9808) (k : limit_kind) (limit : pyval) :
  call_set_limit fi self k limit =
  set_alert_limit fi self limit (limit_register k).
Proof. destruct k; reflexivity. Qed.

(** C6: a limit below -128 or above 127, on any of the three setters,
    raises [ValueError] (the driver's validation error) and leaves the
    world as it was: no bus transaction, the device untouched, nothing
    printed. *)
Theorem out_of_range_limit_rejected (self : mcp9808) (k : limit_kind)
  (n : number) (w : world Dev) :
  out_of_range fi n = true ->
  call_set_limit fi self k (PNum n) w = (Raise ValueError, w).
Proof.
  intro Hout. rewrite call_set_limit_eq, set_alert_limit_run, Hout.
  reflexivity.
Qed.

(** C7, amended: when the bus traffic of a [set_alert_crit_limit] call is
    a successful write followed by a successful readback of other bytes,
    the call returns normally, nothing is raised; with debug disabled
    nothing is printed. *)
Theorem crit_limit_mismatch_returns (self : mcp9808) (limit : pyval)
  (w : world Dev) (buf check : list Z) :
  let run := set_alert_crit_limit fi self limit w in
  new_events w (snd run) =
    [BusWrite (addr self) REG_ATC buf (Some tt);
     BusRead (addr self) REG_ATC 2 (Some check)] ->
  check <> buf ->
  fst run = Ok tt /\
  (debug_bit self = false -> stdout (snd run) = stdout w).
Proof.
  intros run Hev _. subst run. unfold set_alert_crit_limit in *.
  assert (Hnil : new_events w w = []).
  { apply new_events_app. symmetry. apply app_nil_r. }
  destruct limit as [| b | s | n];
    try (cbn in Hev; rewrite Hnil in Hev; discriminate).
  rewrite set_alert_limit_run in *.
  destruct (out_of_range fi n);
    [cbn in Hev; rewrite Hnil in Hev; discriminate|].
  destruct (alert_limit_buf fi n) as [b|e];
    [|cbn in Hev; rewrite Hnil in Hev; discriminate].
  destruct (writeto_mem (dev w) (addr self) REG_ATC b) as [[[]|] d1].
  - destruct (readfrom_mem d1 (addr self) REG_ATC 2) as [[c|] d2].
    + split; reflexivity.
    + cbn [snd] in Hev.
      erewrite new_events_app in Hev
        by (cbn [bus_log]; rewrite <- app_assoc; reflexivity).
      discriminate.
  - cbn [snd] in Hev.
    erewrite new_events_app in Hev by (cbn [bus_log]; reflexivity).
    discriminate.
Qed.
End AlertLimitRuns.

Lemma out_of_range_limit_rejected_witness :
  out_of_range FloatDouble (Int 130) = true /\
  out_of_range FloatSingle (Int (-200)) = true /\
  call_set_limit FloatDouble (session_of false cfg_sample) Crit
    (PNum (Int 130)) (Sim.boot Sim.power_up)
  = (Raise ValueError, Sim.boot Sim.power_up) /\
  call_set_limit FloatSingle (session_of false cfg_sample) Upper
    (PNum (Int (-200))) (Sim.boot Sim.power_up)
  = (Raise ValueError, Sim.boot Sim.power_up).
Proof.
  split; [reflexivity|]. split; [reflexivity|]. split.
  - exact (out_of_range_limit_rejected FloatDouble _ Crit (Int 130) _ eq_refl).
  - exact (out_of_range_limit_rejected FloatSingle _ Upper (Int (-200)) _ eq_refl).
Defined.

(** C7, as stated, fails: on the simulated sensor with the critical limit
    locked and a session built with debug disabled, the write of a new
    critical limit reads back as the old one and the call returns, but no
    diagnostic reports the mismatch: nothing is printed. *)
Lemma crit_limit_mismatch_unreported_counterexample :
  let run := scenario_locked_crit_limit FloatDouble false
               (Sim.boot Sim.power_up) in
  fst run = Ok tt /\
  bus_log (snd run) =
    [BusRead 0x18 REG_MFR 2 (Some [0x00; 0x54]);
     BusRead 0x18 REG_DEV 2 (Some [0x04; 0x00]);
     BusRead 0x18 REG_CFG 2 (Some [0x00; 0x00]);
     BusWrite 0x18 REG_CFG [0x00; 0x80] (Some tt);
     BusRead 0x18 REG_CFG 2 (Some [0x00; 0x80]);
     BusWrite 0x18 REG_ATC [0x01; 0xE0] (Some tt);
     BusRead 0x18 REG_ATC 2 (Some [0x00; 0x00])] /\
  stdout (snd run) = [].
Proof. repeat split. Qed.

Lemma crit_limit_mismatch_returns_witness :
  let self := session_of false cfg_sample in
  let w := Sim.boot (Sim.set_reg Sim.power_up REG_CFG [0x00; 0x80]) in
  let run := set_alert_crit_limit FloatDouble self (PNum (Int 30)) w in
  new_events w (snd run) =
    [BusWrite (addr self) REG_ATC [0x01; 0xE0] (Some tt);
     BusRead (addr self) REG_ATC 2 (Some [0x00; 0x00])] /\
  [0x00; 0x00] <> [0x01; 0xE0] /\
  fst run = Ok tt /\
  (debug_bit self = false -> stdout (snd run) = stdout w).
Proof.
  intros self w run.
  assert (Hev : new_events w (snd run) =
    [BusWrite (addr self) REG_ATC [0x01; 0xE0] (Some tt);
     BusRead (addr self) REG_ATC 2 (Some [0x00; 0x00])]) by reflexivity.
  assert (Hne : [0x00; 0x00] <> [0x01; 0xE0]) by discriminate.
  split; [exact Hev|]. split; [exact Hne|].
  exact (crit_limit_mismatch_returns FloatDouble self (PNum (Int 30)) w
           [0x01; 0xE0] [0x00; 0x00] Hev Hne).
Defined.

(** ** Identity check at construction *)

Section Construction.
Context {Dev : Type} `{I2C Dev}.

Lemma check_device_run (self : mcp9808) (w : world Dev) :
  check_device self w =
  let a := addr self in
  let '(res, d1) := readfrom_mem (dev w) a REG_MFR 2 in
  let w1 := {| dev := d1; bus_log := bus_log w ++ [BusRead a REG_MFR 2 res];
               stdout := stdout w |} in
  match res with
  | None => (Raise OSError, w1)
  | Some mfr =>
      if negb (bytes_eqb mfr [0x00; 0x54])
      then (Raise (Exception (InvalidManufacturerID mfr)), w1)
      else
        let '(res2, d2) := readfrom_mem d1 a REG_DEV 2 in
        let w2 := {| dev := d2;
                     bus_log := bus_log w1 ++ [BusRead a REG_DEV 2 res2];
                     stdout := stdout w |} in
        match res2 with
        | None => (Raise OSError, w2)
        | Some did =>
            if negb (nth 0 did 0 =? 4)
            then (Raise (Exception (InvalidDeviceID (nth 0 did 0))), w2)
            else (Ok {| debug_bit := debug_bit self; addr := a;
                        mfr_id := mfr; dev_id := did; cfg := cfg self |}, w2)
        end
  end.
Proof.
  unfold check_device, bind at 1, i2c_readfrom_mem. cbn [dev bus_log stdout].
  destruct (readfrom_mem (dev w) (addr self) REG_MFR 2) as [[mfr|] d1];
    [|reflexivity].
  cbn [addr].
  destruct (negb (bytes_eqb mfr [0x00; 0x54])); [reflexivity|].
  unfold bind at 1. cbn [dev bus_log stdout].
  destruct (readfrom_mem d1 (addr self) REG_DEV 2) as [[did|] d2];
    [|reflexivity].
  cbn [addr debug_bit mfr_id cfg].
  destruct (negb (nth 0 did 0 =? 4)); [reflexivity|].
  unfold bind. rewrite when_debug_silent. reflexivity.
Qed.

Lemma bytes_eqb_eq (a b : list Z) : bytes_eqb a b = true <-> a = b.
Proof.
  unfold bytes_eqb. destruct (list_eq_dec Z.eq_dec a b); split;
    congruence.
Qed.

(** C9, amended: with the manufacturer-ID register read, construction
    goes on only if the two bytes are 0x00, 0x54, and raises the identity
    exception for any other bytes.  With those bytes and a device ID whose
    first byte is 4, construction succeeds once the configuration is read,
    whatever the second (revision) byte of the device ID is: that byte
    raises nothing, adds no bus traffic and ends up in the stored device
    ID; with debug disabled nothing is printed.  A first device-ID byte
    other than 4 raises the identity exception as well. *)
Theorem init_identity_check (addr0 : option Z) (A0 A1 A2 debug : bool)
  (w : world Dev) (mfr : list Z) (d1 : Dev) :
  let a := session_addr addr0 A0 A1 A2 in
  let run := init addr0 A0 A1 A2 debug w in
  readfrom_mem (dev w) a REG_MFR 2 = (Some mfr, d1) ->
  (mfr <> [0x00; 0x54] ->
   fst run = Raise (Exception (InvalidManufacturerID mfr))) /\
  (mfr = [0x00; 0x54] ->
   forall did d2,
     readfrom_mem d1 a REG_DEV 2 = (Some did, d2) ->
     (nth 0 did 0 <> 4 ->
      fst run = Raise (Exception (InvalidDeviceID (nth 0 did 0)))) /\
     (nth 0 did 0 = 4 ->
      forall c d3,
        readfrom_mem d2 a REG_CFG 2 = (Some c, d3) ->
        fst run = Ok {| debug_bit := debug; addr := a; mfr_id := mfr;
                        dev_id := did; cfg := unpack_config c |} /\
        dev (snd run) = d3 /\
        new_events w (snd run) =
          [BusRead a REG_MFR 2 (Some mfr); BusRead a REG_DEV 2 (Some did);
           BusRead a REG_CFG 2 (Some c)] /\
        (debug = false -> stdout (snd run) = stdout w))).
Proof.
  intros a run Hmfr. subst run. unfold init, bind.
  rewrite check_device_run. cbn [addr debug_bit cfg].
  fold a. rewrite Hmfr. split.
  - intro Hne.
    destruct (bytes_eqb mfr [0x00; 0x54]) eqn:E.
    + apply bytes_eqb_eq in E. contradiction.
    + reflexivity.
  - intros -> did d2 Hdev. cbn [bytes_eqb negb].
    replace (bytes_eqb [0x00; 0x54] [0x00; 0x54]) with true
      by (symmetry; now apply bytes_eqb_eq).
    cbn [negb]. rewrite Hdev. split.
    + intro Hne. apply Z.eqb_neq in Hne. rewrite Hne. reflexivity.
    + intros H4 c d3 Hcfg. apply Z.eqb_eq in H4. rewrite H4. cbn [negb].
      rewrite get_config_run. cbn [addr dev bus_log stdout].
      rewrite Hcfg. cbn [fst snd dev stdout].
      split; [reflexivity|]. split; [reflexivity|].
      split; [|reflexivity].
      apply new_events_app. cbn [bus_log].
      rewrite <- !app_assoc. reflexivity.
Qed.
End Construction.

Lemma init_identity_check_witness :
  let w := Sim.boot revision_1 in
  let run := init None false false false false w in
  readfrom_mem (dev w) BASE_ADDR REG_MFR 2 = (Some [0x00; 0x54], revision_1) /\
  readfrom_mem revision_1 BASE_ADDR REG_DEV 2 = (Some [0x04; 0x01], revision_1) /\
  readfrom_mem revision_1 BASE_ADDR REG_CFG 2 = (Some [0x00; 0x00], revision_1) /\
  fst run = Ok {| debug_bit := false; addr := BASE_ADDR; mfr_id := [0x00; 0x54];
                  dev_id := [0x04; 0x01]; cfg := unpack_config [0x00; 0x00] |} /\
  dev (snd run) = revision_1 /\
  new_events w (snd run) =
    [BusRead BASE_ADDR REG_MFR 2 (Some [0x00; 0x54]);
     BusRead BASE_ADDR REG_DEV 2 (Some [0x04; 0x01]);
     BusRead BASE_ADDR REG_CFG 2 (Some [0x00; 0x00])] /\
  (false = false -> stdout (snd run) = stdout w).
Proof.
  intros w run.
  split; [reflexivity|]. split; [reflexivity|]. split; [reflexivity|].
  exact (proj2 (proj2 (init_identity_check None false false false false w
                         [0x00; 0x54] revision_1 eq_refl) eq_refl
                  [0x04; 0x01] revision_1 eq_refl) eq_refl
           [0x00; 0x00] revision_1 eq_refl).
Defined.

(** C9, as stated, fails: a session built with debug disabled on a sensor
    of hardware revision 1 is constructed all right, and the revision
    differing from the expected 0 is surfaced nowhere: nothing is
    printed. *)
Lemma revision_mismatch_unreported_counterexample :
  let run := init None false false false false (Sim.boot revision_1) in
  fst run = Ok {| debug_bit := false; addr := 0x18; mfr_id := [0x00; 0x54];
                  dev_id := [0x04; 0x01]; cfg := unpack_config [0x00; 0x00] |} /\
  stdout (snd run) = [].
Proof. split; reflexivity. Qed.

(** Something that does not answer with the manufacturer ID is refused. *)
Example init_stranger :
  fst (init None false false false false (Sim.boot stranger)) =
  Raise (Exception (InvalidManufacturerID [0x00; 0x55])).
Proof. reflexivity. Qed.

(** ** Diagnostics that never appear *)

(** The attribute that holds the flag, and the attribute that [__debug]
    tests. *)
Lemma getattr_debug_bit (self : mcp9808) :
  getattr self "__debug_bit" = Some (OBool (debug_bit self)).
Proof. reflexivity. Qed.

Lemma getattr_debug (self : mcp9808) :
  getattr self "__debug" = Some (OMethod "__debug").
Proof. reflexivity. Qed.

(** C4 fails on the code.  A session built with debug enabled on the
    simulated sensor locks the critical limit, then asks for the alert
    output and for a new critical limit; the sensor refuses both, the
    readbacks show it (the alert control bit reads false, the limit reads
    back as the old bytes), all calls return, and nothing has been
    printed: the warnings are dropped. *)
Theorem divergence_warnings_dropped :
  let run := scenario_locked_refusals FloatDouble true
               (Sim.boot Sim.power_up) in
  (exists self, fst run = Ok self /\ debug_bit self = true /\
                alert_ctrl (cfg self) = false) /\
  skipn 5 (bus_log (snd run)) =
    [BusWrite 0x18 REG_CFG [0x00; 0x88] (Some tt);
     BusRead 0x18 REG_CFG 2 (Some [0x00; 0x80]);
     BusWrite 0x18 REG_ATC [0x01; 0xE0] (Some tt);
     BusRead 0x18 REG_ATC 2 (Some [0x00; 0x00])] /\
  stdout (snd run) = [].
Proof.
  intro run. split; [|split; reflexivity].
  eexists. repeat split.
Qed.

(** ** The temperature register *)

Lemma In_below (n : nat) (b : Z) : 0 <= b < Z.of_nat n -> In b (below n).
Proof.
  intro Hb. unfold below. apply in_map_iff.
  exists (Z.to_nat b). split; [lia|].
  apply in_seq. lia.
Qed.

Lemma temperature_bits_table :
  forallb temperature_bits_agree (below 256) = true.
Proof. vm_compute. reflexivity. Qed.

(** The decoding exhausted over the five low bits of the first byte and
    the whole second byte, for both float formats. *)
Lemma temperature_table (fi : float_impl) :
  forallb (fun b0 => forallb (temperature_in_range fi b0) (below 256))
          (below 32) = true.
Proof. destruct fi; vm_compute; reflexivity. Qed.

Lemma temperature_of_low_bits (fi : float_impl) (b0 b1 : Z) :
  is_byte b0 ->
  temperature_of fi [b0; b1] = temperature_of fi [Z.land b0 0x1F; b1] /\
  Z.testbit b0 4 = Z.testbit (Z.land b0 0x1F) 4.
Proof.
  intro Hb0.
  pose proof (proj1 (forallb_forall _ _) temperature_bits_table b0
                (In_below 256 b0 Hb0)) as Hbits.
  unfold temperature_bits_agree in Hbits.
  apply andb_true_iff in Hbits. destruct Hbits as [Hbits Ht].
  apply andb_true_iff in Hbits. destruct Hbits as [Hs Hu].
  apply Z.eqb_eq in Hs, Hu. apply Bool.eqb_prop in Ht.
  split; [|now symmetry].
  unfold temperature_of. cbn [nth]. rewrite Hs, Hu. reflexivity.
Qed.

Lemma temperature_in_range_bytes (fi : float_impl) (b0 b1 : Z) :
  is_byte b0 -> is_byte b1 -> temperature_in_range fi b0 b1 = true.
Proof.
  intros Hb0 Hb1.
  destruct (temperature_of_low_bits fi b0 b1 Hb0) as [Ht Hs].
  unfold temperature_in_range. rewrite Ht, Hs.
  assert (Hlow : 0 <= Z.land b0 0x1F < Z.of_nat 32).
  { change 0x1F with (Z.ones 5). rewrite Z.land_ones by lia.
    change (Z.of_nat 32) with (2 ^ 5). apply Z.mod_pos_bound. lia. }
  pose proof (proj1 (forallb_forall _ _) (temperature_table fi) _
                (In_below 32 _ Hlow)) as Hrow.
  exact (proj1 (forallb_forall _ _) Hrow b1 (In_below 256 b1 Hb1)).
Qed.

(** C5: whatever two bytes the temperature register reads as,
    [get_temeperature] returns a float of the format that lies in
    [-256, 0) when the sign bit (bit 4 of the first byte) is set and in
    [0, 256) when it is clear. *)
Theorem get_temeperature_range {Dev} `{I2C Dev} (fi : float_impl)
  (self : mcp9808) (w : world Dev) (raw : list Z) (d : Dev) :
  readfrom_mem (dev w) (addr self) REG_TEM 2 = (Some raw, d) ->
  exists b0 b1 t,
    raw = [b0; b1] /\
    fst (get_temeperature fi self w) = Ok t /\
    PyNum.valid fi t = true /\
    (Z.testbit b0 4 = true ->
     PyNum.leb fi (Int (-256)) t = true /\ PyNum.ltb fi t (Int 0) = true) /\
    (Z.testbit b0 4 = false ->
     PyNum.leb fi (Int 0) t = true /\ PyNum.ltb fi t (Int 256) = true).
Proof.
  intro Hread.
  destruct (readfrom_mem_bytes _ _ _ _ _ _ Hread) as [Hlen Hbytes].
  destruct raw as [|b0 [|b1 [|b2 raw]]]; try discriminate.
  inversion Hbytes as [|? ? Hb0 Hrest]; subst.
  inversion Hrest as [|? ? Hb1 _]; subst.
  exists b0, b1, (temperature_of fi [b0; b1]).
  split; [reflexivity|]. split.
  { unfold get_temeperature, bind, i2c_readfrom_mem. rewrite Hread.
    reflexivity. }
  pose proof (temperature_in_range_bytes fi b0 b1 Hb0 Hb1) as Hok.
  unfold temperature_in_range in Hok.
  apply andb_true_iff in Hok. destruct Hok as [Hv Hr].
  split; [exact Hv|].
  split; intro Hs; rewrite Hs in Hr; now apply andb_true_iff in Hr.
Qed.

Lemma get_temeperature_range_witness :
  let self := session_of false cfg_sample in
  let w := Sim.boot Sim.power_up in
  readfrom_mem (dev w) (addr self) REG_TEM 2 = (Some [0xC1; 0x94], Sim.power_up) /\
  exists b0 b1 t,
    [0xC1; 0x94] = [b0; b1] /\
    fst (get_temeperature FloatDouble self w) = Ok t /\
    PyNum.valid FloatDouble t = true /\
    (Z.testbit b0 4 = true ->
     PyNum.leb FloatDouble (Int (-256)) t = true /\
     PyNum.ltb FloatDouble t (Int 0) = true) /\
    (Z.testbit b0 4 = false ->
     PyNum.leb FloatDouble (Int 0) t = true /\
     PyNum.ltb FloatDouble t (Int 256) = true).
Proof.
  intros self w. split; [reflexivity|].
  exact (get_temeperature_range FloatDouble self w [0xC1; 0x94]
           Sim.power_up eq_refl).
Defined.

(** ** Floats that stay finite

    Rounding, subtraction and division of the executable float
    specification keep a bounded magnitude bounded, so the conversions to
    [int] in [__set_alert_limit] cannot meet an infinity or a NaN. *)

Section FloatBounds.
Variables prec emax : Z.
Hypothesis Hprec : 0 < prec.

Lemma digits2_pos_size (p : positive) : digits2_pos p = Pos.size p.
Proof. induction p; cbn; congruence. Qed.

Lemma Zdigits2_log2 (m : Z) : 0 < m -> Zdigits2 m = Z.log2 m + 1.
Proof.
  destruct m as [|p|p]; try lia. intros _. cbn [Zdigits2].
  rewrite digits2_pos_size.
  destruct p; cbn [Pos.size Z.log2]; lia.
Qed.

Lemma shr_m_shr_1 (mrs : shr_record) :
  0 <= shr_m mrs -> shr_m (shr_1 mrs) = Z.shiftr (shr_m mrs) 1.
Proof.
  destruct mrs as [m r s]. cbn [shr_m]. intro Hm.
  rewrite <- Z.div2_spec.
  destruct m as [|[p|p|]|p]; try lia; reflexivity.
Qed.

Lemma shr_m_iter (p : positive) :
  forall mrs, 0 <= shr_m mrs ->
  shr_m (iter_pos shr_1 p mrs) = Z.shiftr (shr_m mrs) (Zpos p).
Proof.
  induction p as [p IH|p IH|]; intros mrs Hm; cbn [iter_pos].
  - assert (H1 : 0 <= shr_m (shr_1 mrs)).
    { rewrite shr_m_shr_1 by assumption. now apply Z.shiftr_nonneg. }
    assert (H2 : 0 <= shr_m (iter_pos shr_1 p (shr_1 mrs))).
    { rewrite IH by assumption. now apply Z.shiftr_nonneg. }
    rewrite IH, IH, shr_m_shr_1 by assumption.
    rewrite !Z.shiftr_shiftr by lia. f_equal. lia.
  - assert (H2 : 0 <= shr_m (iter_pos shr_1 p mrs)).
    { rewrite IH by assumption. now apply Z.shiftr_nonneg. }
    rewrite IH, IH by assumption.
    rewrite !Z.shiftr_shiftr by lia. f_equal. lia.
  - now apply shr_m_shr_1.
Qed.

Lemma shr_m_of_loc (m : Z) (l : location) :
  shr_m (shr_record_of_loc m l) = m.
Proof. destruct l as [|[]]; reflexivity. Qed.

Lemma shr_fexp_below (K m e : Z) (l : location) :
  3 - emax - prec < K ->
  below_pow K m e ->
  below_pow K (shr_m (fst (shr_fexp prec emax m e l)))
              (snd (shr_fexp prec emax m e l)).
Proof.
  intros HK [Hm Hlog]. unfold shr_fexp, shr.
  destruct (fexp prec emax (Zdigits2 m + e) - e) as [|p|p] eqn:En;
    cbn [fst snd]; rewrite ?shr_m_of_loc; try (split; assumption).
  rewrite shr_m_iter by (rewrite shr_m_of_loc; assumption).
  rewrite shr_m_of_loc. split; [now apply Z.shiftr_nonneg|].
  unfold fexp, emin in En.
  destruct (Z.eq_dec m 0) as [->|Hnz].
  - rewrite Z.shiftr_0_l. cbn [Zdigits2 Z.log2] in *. lia.
  - rewrite Z.log2_shiftr by lia.
    rewrite Zdigits2_log2 in En by lia. lia.
Qed.

Lemma round_nearest_even_below (K m e : Z) (l : location) :
  below_pow K m e -> below_pow (K + 1) (round_nearest_even m l) e.
Proof.
  intros [Hm Hlog].
  assert (Hs : below_pow (K + 1) (m + 1) e).
  { split; [lia|]. pose proof (Z.log2_succ_le m). unfold Z.succ in *. lia. }
  assert (H0 : below_pow (K + 1) m e) by (split; lia).
  unfold round_nearest_even.
  destruct l as [|[]]; try assumption.
  destruct (Z.even m); assumption.
Qed.

Lemma binary_round_aux_bounded (K : Z) (sx : bool) (mx ex : Z) (lx : location) :
  3 - emax - prec < K ->
  K + 1 <= emax - prec ->
  below_pow K mx ex ->
  fbounded (K + 1) (binary_round_aux prec emax sx mx ex lx).
Proof.
  intros HK Hmax Hb. unfold binary_round_aux.
  pose proof (shr_fexp_below K mx ex lx HK Hb) as H1.
  destruct (shr_fexp prec emax mx ex lx) as [mrs' e']. cbn [fst snd] in H1.
  pose proof (round_nearest_even_below K _ _ (loc_of_shr_record mrs') H1) as H2.
  pose proof (shr_fexp_below (K + 1) _ _ loc_Exact ltac:(lia) H2) as H3.
  destruct (shr_fexp prec emax _ e' loc_Exact) as [mrs'' e''].
  cbn [fst snd] in H3. destruct H3 as [Hm Hlog].
  destruct (shr_m mrs'') as [|m|m]; cbn [fbounded]; try lia.
  pose proof (Z.log2_nonneg (Zpos m)).
  replace (e'' <=? emax - prec) with true by (symmetry; apply Z.leb_le; lia).
  cbn [fbounded]. lia.
Qed.

Lemma Zpos_iter_xO (m d : positive) :
  Zpos (Pos.iter xO m d) = Z.shiftl (Zpos m) (Zpos d).
Proof.
  rewrite Z.shiftl_mul_pow2 by lia.
  induction d using Pos.peano_ind.
  - cbn [Pos.iter]. rewrite Pos2Z.inj_xO. lia.
  - rewrite Pos.iter_succ, Pos2Z.inj_succ, Z.pow_succ_r by lia.
    rewrite Pos2Z.inj_xO, IHd. lia.
Qed.

Lemma shl_align_below (K : Z) (mx : positive) (ex ex' : Z) :
  Z.log2 (Zpos mx) + ex < K ->
  Z.log2 (Zpos (fst (shl_align mx ex ex'))) + snd (shl_align mx ex ex') < K.
Proof.
  intro Hlog. unfold shl_align.
  destruct (ex' - ex) as [|d|d] eqn:Ed; cbn [fst snd]; try assumption.
  rewrite Zpos_iter_xO, Z.log2_shiftl by lia. lia.
Qed.

Lemma binary_round_bounded (K : Z) (sx : bool) (mx : positive) (ex : Z) :
  3 - emax - prec < K ->
  K + 1 <= emax - prec ->
  Z.log2 (Zpos mx) + ex < K ->
  fbounded (K + 1) (binary_round prec emax sx mx ex).
Proof.
  intros HK Hmax Hlog. unfold binary_round.
  pose proof (shl_align_below K mx ex
                (fexp prec emax (Zpos (digits2_pos mx) + ex)) Hlog) as Ha.
  destruct (shl_align mx ex _) as [mz ez]. cbn [fst snd] in Ha.
  apply binary_round_aux_bounded; try assumption.
  split; [lia|assumption].
Qed.

Lemma binary_normalize_bounded (K m e : Z) (szero : bool) :
  3 - emax - prec < K ->
  K + 1 <= emax - prec ->
  Z.log2 (Z.abs m) + e < K ->
  fbounded (K + 1) (binary_normalize prec emax m e szero).
Proof.
  intros HK Hmax Hlog. unfold binary_normalize.
  destruct m as [|p|p]; [exact I| |]; now apply binary_round_bounded.
Qed.

Lemma fbounded_mono (K K' : Z) (x : spec_float) :
  K <= K' -> fbounded K x -> fbounded K' x.
Proof. destruct x; cbn; try tauto; lia. Qed.

Lemma log2_lt_pow2_pos (m : positive) (j : Z) :
  Z.log2 (Zpos m) < j <-> Zpos m < 2 ^ j.
Proof. symmetry. apply Z.log2_lt_pow2. lia. Qed.

(** An aligned mantissa keeps its magnitude. *)
Lemma shl_align_min_below (K : Z) (mx : positive) (ex ez : Z) :
  ez <= ex ->
  Z.log2 (Zpos mx) + ex < K ->
  Zpos (fst (shl_align mx ex ez)) < 2 ^ (K - ez).
Proof.
  intros Hle Hlog. apply log2_lt_pow2_pos.
  pose proof (shl_align_below K mx ex ez Hlog) as Ha.
  unfold shl_align in *.
  destruct (ez - ex) as [|d|d] eqn:Ed; cbn [fst snd] in *; lia.
Qed.

Lemma abs_diff_below (j a b : Z) (sa sb : bool) :
  0 < a < 2 ^ j -> 0 < b < 2 ^ j ->
  Z.log2 (Z.abs (cond_Zopp sa a - cond_Zopp sb b)) < j + 1.
Proof.
  intros Ha Hb.
  assert (Hj : 0 <= j).
  { destruct (Z.lt_ge_cases j 0) as [Hn|]; [|assumption].
    rewrite Z.pow_neg_r in Ha by assumption. lia. }
  set (d := Z.abs _).
  assert (Hd : 0 <= d < 2 ^ (j + 1)).
  { subst d. rewrite Z.pow_add_r by lia.
    destruct sa, sb; cbn [cond_Zopp]; lia. }
  destruct (Z.eq_dec d 0) as [->|Hnz]; [cbn; lia|].
  apply Z.log2_lt_pow2; lia.
Qed.

Lemma SFsub_bounded (K : Z) (x y : spec_float) :
  3 - emax - prec < K ->
  K + 2 <= emax - prec ->
  fbounded K x -> fbounded K y ->
  fbounded (K + 2) (SFsub prec emax x y).
Proof.
  intros HK Hmax Hx Hy.
  destruct x as [sx|sx| |sx mx ex], y as [sy|sy| |sy my ey];
    cbn [fbounded] in Hx, Hy; try contradiction; cbn [SFsub].
  - destruct sx, sy; exact I.
  - cbn [fbounded]. lia.
  - cbn [fbounded]. lia.
  - replace (K + 2) with (K + 1 + 1) by lia.
    apply binary_normalize_bounded; try lia.
    set (ez := Z.min ex ey).
    pose proof (shl_align_min_below K mx ex ez ltac:(lia) Hx) as Hax.
    pose proof (shl_align_min_below K my ey ez ltac:(lia) Hy) as Hay.
    pose proof (abs_diff_below (K - ez) _ _ sx sy
                  (conj (Pos2Z.is_pos _) Hax) (conj (Pos2Z.is_pos _) Hay)).
    lia.
Qed.

Lemma SFdiv_core_below (K : Z) (mx my : positive) (ex ey : Z) :
  Z.log2 (Zpos mx) + ex < K ->
  let '(mz, ez, _) := SFdiv_core_binary prec emax (Zpos mx) ex (Zpos my) ey in
  below_pow (K - ey) mz ez.
Proof.
  intro Hlog. unfold SFdiv_core_binary.
  set (e' := Z.min _ (ex - ey)).
  assert (He' : e' <= ex - ey) by (subst e'; lia).
  set (m' := match ex - ey - e' with
             | 0 => Zpos mx
             | Zpos _ => Z.shiftl (Zpos mx) (ex - ey - e')
             | Zneg _ => 0
             end).
  assert (Hm' : m' = Z.shiftl (Zpos mx) (ex - ey - e')).
  { subst m'. destruct (ex - ey - e') eqn:E; try reflexivity. lia. }
  pose proof (Z.div_eucl_eq m' (Zpos my) ltac:(lia)) as Heq.
  pose proof (Z.mod_pos_bound m' (Zpos my) ltac:(lia)) as Hmod.
  unfold Z.modulo in Hmod.
  destruct (Z.div_eucl m' (Zpos my)) as [q r].
  assert (Hm'pos : 0 < m').
  { rewrite Hm', Z.shiftl_mul_pow2 by lia.
    apply Z.mul_pos_pos; [lia|apply Z.pow_pos_nonneg; lia]. }
  assert (Hq : 0 <= q <= m') by nia.
  split; [lia|].
  pose proof (Z.log2_le_mono q m' ltac:(lia)) as Hmono.
  rewrite Hm', Z.log2_shiftl in Hmono by lia. lia.
Qed.

Lemma SFdiv_bounded (K : Z) (x : spec_float) (sy : bool) (my : positive)
  (ey : Z) :
  3 - emax - prec < K - ey ->
  K - ey + 1 <= emax - prec ->
  fbounded K x ->
  fbounded (K - ey + 1) (SFdiv prec emax x (S754_finite sy my ey)).
Proof.
  intros HK Hmax Hx.
  destruct x as [sx|sx| |sx mx ex]; cbn [fbounded] in Hx; try contradiction;
    cbn [SFdiv]; [exact I|].
  pose proof (SFdiv_core_below K mx my ex ey Hx) as Hc.
  destruct (SFdiv_core_binary prec emax (Zpos mx) ex (Zpos my) ey)
    as [[mz ez] lz].
  now apply binary_round_aux_bounded.
Qed.

(** A canonical mantissa has at most [prec] digits. *)
Lemma valid_binary_digits (s : bool) (m : positive) (e : Z) :
  valid_binary prec emax (S754_finite s m e) = true ->
  Z.log2 (Zpos m) < prec.
Proof.
  cbn [valid_binary]. unfold bounded, canonical_mantissa, fexp.
  rewrite andb_true_iff, Z.eqb_eq. intros [Hc _].
  change (Zpos (digits2_pos m)) with (Zdigits2 (Zpos m)) in Hc.
  rewrite Zdigits2_log2 in Hc by lia. lia.
Qed.
End FloatBounds.

(** ** Alert limits: the encoding of a limit in range *)

Lemma fprec_pos (fi : float_impl) : 0 < fprec fi.
Proof. destruct fi; reflexivity. Qed.

Lemma int_of_float_bounded (K : Z) (f : spec_float) :
  fbounded K f -> exists i, PyNum.int_of_float f = Ok i.
Proof.
  destruct f; cbn [fbounded PyNum.int_of_float]; try contradiction;
    intros _; eexists; reflexivity.
Qed.

Lemma float_of_int_bounded (fi : float_impl) (z : Z) :
  -512 < z < 512 -> fbounded 10 (PyNum.float_of_int fi z).
Proof.
  intro Hz. unfold PyNum.float_of_int.
  apply (binary_normalize_bounded (fprec fi) (femax fi) (fprec_pos fi) 9);
    try (destruct fi; cbn [fprec femax]; lia).
  destruct (Z.eq_dec z 0) as [->|Hnz]; [cbn; lia|].
  assert (Z.log2 (Z.abs z) < 9) by (apply Z.log2_lt_pow2; lia).
  lia.
Qed.

Lemma SFleb_negative_exponent (mc m : positive) (ec e : Z) :
  SFleb (S754_finite true mc ec) (S754_finite true m e) = true -> e <= ec.
Proof.
  unfold SFleb, SFcompare.
  destruct (Z.compare_spec ec e); try discriminate; lia.
Qed.

Lemma SFleb_positive_exponent (m mc : positive) (e ec : Z) :
  SFleb (S754_finite false m e) (S754_finite false mc ec) = true -> e <= ec.
Proof.
  unfold SFleb, SFcompare.
  destruct (Z.compare_spec e ec); try discriminate; lia.
Qed.

(** The two ends of the range as floats. *)
Lemma float_of_range_ends (fi : float_impl) :
  exists lo hi,
    PyNum.float_of_int fi (-128) = S754_finite true lo (8 - fprec fi) /\
    PyNum.float_of_int fi 127 = S754_finite false hi (7 - fprec fi).
Proof. destruct fi; do 2 eexists; split; reflexivity. Qed.

(** A float within [[-128, 127]] has a magnitude below [2 ^ 8]. *)
Lemma in_range_bounded (fi : float_impl) (f : spec_float) :
  in_range fi (Float f) = true -> fbounded 8 f.
Proof.
  unfold in_range. rewrite !andb_true_iff. intros [[Hv Hlo] Hhi].
  cbn [PyNum.valid PyNum.leb PyNum.to_float] in *.
  destruct (float_of_range_ends fi) as (lo & hi & Elo & Ehi).
  rewrite Elo in Hlo. rewrite Ehi in Hhi.
  destruct f as [s|s| |s m e]; cbn [fbounded].
  - exact I.
  - destruct s; [discriminate Hlo | discriminate Hhi].
  - discriminate Hlo.
  - pose proof (valid_binary_digits _ _ s m e Hv) as Hd.
    destruct s.
    + apply SFleb_negative_exponent in Hlo. lia.
    + apply SFleb_positive_exponent in Hhi. lia.
Qed.

Lemma quarter_finite (fi : float_impl) :
  exists m e, PyNum.quarter fi = S754_finite false m e /\ -(fprec fi + 1) = e.
Proof. destruct fi; do 2 eexists; split; reflexivity. Qed.

(** The fractional quotient of [__set_alert_limit] converts to an [int]
    for every operand of magnitude below [2 ^ 10]. *)
Lemma quotient_int (fi : float_impl) (x : spec_float) :
  fbounded 12 x ->
  exists q, PyNum.int (PyNum.truediv fi (Float x) (Float (PyNum.quarter fi)))
            = Ok q.
Proof.
  intro Hx. destruct (quarter_finite fi) as (m & e & Eq & Ee).
  cbn [PyNum.int PyNum.truediv PyNum.to_float]. rewrite Eq.
  apply (int_of_float_bounded (12 - e + 1)).
  apply SFdiv_bounded; try assumption; try apply fprec_pos;
    subst e; destruct fi; cbn [fprec femax]; lia.
Qed.

Lemma land_255_byte (i : Z) : 0 <= Z.land i 0xFF < 256.
Proof.
  change 0xFF with (Z.ones 8). rewrite Z.land_ones by lia.
  apply Z.mod_pos_bound. lia.
Qed.

Lemma high_byte_table :
  forallb (fun i => (store_byte (Z.lor 0x10 (Z.shiftr i 4)) =? Z.lor 0x10 (Z.shiftr i 4))
                    && (store_byte (Z.lor 0x00 (Z.shiftr i 4)) =? Z.lor 0x00 (Z.shiftr i 4)))
          (below 256) = true.
Proof. vm_compute. reflexivity. Qed.

(** The first byte needs no truncation: the sign bit and the high nibble
    of the integral part fit in five bits. *)
Lemma store_byte_high (b : bool) (integral : Z) :
  0 <= integral < 256 ->
  store_byte (Z.lor (if b then 0x10 else 0x00) (Z.shiftr integral 4)) =
  Z.lor (if b then 0x10 else 0x00) (Z.shiftr integral 4).
Proof.
  intro Hi.
  pose proof (proj1 (forallb_forall _ _) high_byte_table integral
                (In_below 256 integral Hi)) as Ht.
  apply andb_true_iff in Ht. destruct Ht as [H1 H0].
  apply Z.eqb_eq in H1, H0. destruct b; assumption.
Qed.

(** The integral part settled on by [__set_alert_limit]. *)
Lemma integral_in_range (fi : float_impl) (n : number) :
  in_range fi n = true ->
  exists integral,
    0 <= integral < 256 /\
    (if PyNum.ltb fi (Int (-1)) n && PyNum.ltb fi n (Int 0)
     then Ok 0xFF
     else i <~ PyNum.int n ;; Ok (Z.land i 0xFF)) = Ok integral.
Proof.
  intro Hr.
  destruct (PyNum.ltb fi (Int (-1)) n && PyNum.ltb fi n (Int 0)).
  - exists 0xFF. split; [lia|reflexivity].
  - assert (Hi : exists i, PyNum.int n = Ok i).
    { destruct n as [z|f]; [eexists; reflexivity|].
      apply (int_of_float_bounded 8). now apply (in_range_bounded fi). }
    destruct Hi as [i Hi]. exists (Z.land i 0xFF).
    split; [apply land_255_byte|]. rewrite Hi. reflexivity.
Qed.

(** The quotient behind the fractional bits converts to an [int]. *)
Lemma fraction_in_range (fi : float_impl) (n : number) (integral : Z) :
  in_range fi n = true ->
  0 <= integral < 256 ->
  exists q,
    PyNum.int (PyNum.truediv fi (PyNum.sub fi n (Int integral))
                                (Float (PyNum.quarter fi))) = Ok q.
Proof.
  intros Hr Hi. destruct n as [z|f].
  - cbn [PyNum.sub].
    change (PyNum.truediv fi (Int (z - integral)) (Float (PyNum.quarter fi)))
      with (PyNum.truediv fi (Float (PyNum.float_of_int fi (z - integral)))
                             (Float (PyNum.quarter fi))).
    apply quotient_int.
    apply (fbounded_mono 10); [lia|].
    apply float_of_int_bounded.
    unfold in_range in Hr. cbn [PyNum.valid PyNum.leb andb] in Hr.
    apply andb_true_iff in Hr. destruct Hr as [Hlo Hhi].
    apply Z.leb_le in Hlo, Hhi. lia.
  - cbn [PyNum.sub PyNum.to_float].
    apply quotient_int.
    replace 12 with (10 + 2) by reflexivity.
    apply SFsub_bounded.
    + apply fprec_pos.
    + destruct fi; cbn [fprec femax]; lia.
    + destruct fi; cbn [fprec femax]; lia.
    + apply (fbounded_mono 8); [lia|]. now apply (in_range_bounded fi).
    + apply float_of_int_bounded. lia.
Qed.

(** The bytes built for a limit in range: no conversion fails. *)
Lemma alert_limit_buf_in_range (fi : float_impl) (n : number) :
  in_range fi n = true ->
  exists integral q,
    0 <= integral < 256 /\
    (if PyNum.ltb fi (Int (-1)) n && PyNum.ltb fi n (Int 0)
     then Ok 0xFF
     else i <~ PyNum.int n ;; Ok (Z.land i 0xFF)) = Ok integral /\
    PyNum.int (PyNum.truediv fi (PyNum.sub fi n (Int integral))
                                (Float (PyNum.quarter fi))) = Ok q /\
    alert_limit_buf fi n =
    Ok [ Z.lor (if PyNum.ltb fi n (Int 0) then 0x10 else 0x00)
               (Z.shiftr integral 4);
         Z.land (Z.lor (Z.shiftl integral 4) (Z.shiftl (Z.land q 0x03) 2))
                0xFF ].
Proof.
  intro Hr.
  destruct (integral_in_range fi n Hr) as (integral & Hi & Eint).
  destruct (fraction_in_range fi n integral Hr Hi) as (q & Eq).
  exists integral, q. repeat (split; [assumption|]).
  unfold alert_limit_buf. rewrite Eint. cbn [obind]. rewrite Eq.
  cbn [obind]. rewrite store_byte_high by assumption. reflexivity.
Qed.

(** Comparing the other way round gives the opposite answer. *)
Lemma SFcompare_swap (a b : spec_float) :
  SFcompare b a = option_map CompOpp (SFcompare a b).
Proof.
  destruct a as [sa|sa| |sa ma ea], b as [sb|sb| |sb mb eb];
    cbn [SFcompare option_map]; try reflexivity;
    try (destruct sa; reflexivity); try (destruct sb; reflexivity);
    try (destruct sa, sb; reflexivity).
  destruct sa, sb; cbn [CompOpp]; try reflexivity;
    rewrite (Z.compare_antisym ea eb);
    destruct (ea ?= eb); cbn [CompOpp]; try reflexivity;
    change PosDef.Pos.compare_cont with Pos.compare_cont;
    rewrite (Pos.compare_cont_antisym ma mb Eq); reflexivity.
Qed.

Lemma SFleb_not_SFltb (a b : spec_float) :
  SFleb a b = true -> SFltb b a = false.
Proof.
  unfold SFleb, SFltb. rewrite (SFcompare_swap a b).
  destruct (SFcompare a b) as [[]|]; cbn; congruence.
Qed.

(** A limit in range is not out of range. *)
Lemma in_range_not_out (fi : float_impl) (n : number) :
  in_range fi n = true -> out_of_range fi n = false.
Proof.
  unfold in_range, out_of_range, PyNum.gtb.
  rewrite !andb_true_iff. intros [[Hv Hlo] Hhi].
  apply orb_false_iff.
  destruct n as [z|f]; cbn [PyNum.leb PyNum.ltb PyNum.to_float] in *.
  - apply Z.leb_le in Hlo, Hhi. split; apply Z.ltb_ge; assumption.
  - split; now apply SFleb_not_SFltb.
Qed.

(** What a setter does with a limit that passed the range check and was
    encoded: the write comes first, and only the bus can still fail. *)
Lemma call_set_limit_accepted {Dev} `{I2C Dev} (fi : float_impl)
  (self : mcp9808) (k : limit_kind) (n : number) (w : world Dev)
  (buf : list Z) :
  out_of_range fi n = false ->
  alert_limit_buf fi n = Ok buf ->
  let run := call_set_limit fi self k (PNum n) w in
  (exists res rest,
     new_events w (snd run) =
     BusWrite (addr self) (limit_register k) buf res :: rest) /\
  (fst run = Ok tt \/ fst run = Raise OSError) /\
  (forallb transaction_ok (new_events w (snd run)) = true -> fst run = Ok tt).
Proof.
  intros Hout Hbuf run. subst run.
  rewrite call_set_limit_eq, set_alert_limit_run, Hout, Hbuf.
  destruct (writeto_mem (dev w) (addr self) (limit_register k) buf)
    as [[[]|] d1].
  - destruct (readfrom_mem d1 (addr self) (limit_register k) 2)
      as [[check|] d2]; cbn [fst snd];
      (erewrite new_events_app
         by (cbn [bus_log]; rewrite <- app_assoc; reflexivity)).
    + split; [do 2 eexists; reflexivity|]. split; [now left|reflexivity].
    + split; [do 2 eexists; reflexivity|]. split; [now right|].
      cbn. discriminate.
  - cbn [fst snd].
    erewrite new_events_app by (cbn [bus_log]; reflexivity).
    split; [do 2 eexists; reflexivity|]. split; [now right|].
    cbn. discriminate.
Qed.

(** The outcome of a setter whose limit passed the range check and was
    encoded is the bus's alone. *)
Lemma call_set_limit_outcome {Dev} `{I2C Dev} (fi : float_impl)
  (self : mcp9808) (k : limit_kind) (n : number) (w : world Dev)
  (buf : list Z) :
  out_of_range fi n = false ->
  alert_limit_buf fi n = Ok buf ->
  let run := call_set_limit fi self k (PNum n) w in
  fst run = if forallb transaction_ok (new_events w (snd run))
            then Ok tt else Raise OSError.
Proof.
  intros Hout Hbuf run. subst run.
  rewrite call_set_limit_eq, set_alert_limit_run, Hout, Hbuf.
  destruct (writeto_mem (dev w) (addr self) (limit_register k) buf)
    as [[[]|] d1].
  - destruct (readfrom_mem d1 (addr self) (limit_register k) 2)
      as [[check|] d2]; cbn [fst snd];
      (erewrite new_events_app
         by (cbn [bus_log]; rewrite <- app_assoc; reflexivity));
      reflexivity.
  - cbn [fst snd].
    erewrite new_events_app by (cbn [bus_log]; reflexivity).
    reflexivity.
Qed.

(** C1, as stated, fails: 25 degrees is within the range, and yet the call
    raises.  Nothing answers at the address of the session, the write of
    the two bytes fails, and its [OSError] leaves the method, which guards
    neither of its two bus calls. *)
Lemma in_range_limit_raises_counterexample :
  in_range FloatDouble (Int 25) = true /\
  set_alert_upper_limit FloatDouble (session_of false cfg_sample)
    (PNum (Int 25)) (Sim.boot absent)
  = (Raise OSError,
     {| dev := absent;
        bus_log := [BusWrite BASE_ADDR REG_ATU [0x01; 0x90] None];
        stdout := [] |}).
Proof. split; reflexivity. Qed.

(** C1, amended: for every limit within [[-128, 127]], an [int] or a float
    of the format, each of the three setters gets through the checks and
    the encoding without raising: the integral part and the fractional
    quotient convert, the two bytes are [sign | (integral >> 4)] and the
    low eight bits of [(integral << 4) | (frac_normal << 2)], and the first
    thing on the bus is the write of these bytes to the register of the
    limit.  From there the outcome is the bus's: the call returns exactly
    when every transaction it attempted went through, and raises the
    [OSError] of the failed one otherwise. *)
Theorem set_alert_limit_in_range {Dev} `{I2C Dev} (fi : float_impl)
  (self : mcp9808) (k : limit_kind) (n : number) (w : world Dev) :
  in_range fi n = true ->
  exists integral q,
    0 <= integral < 256 /\
    (if PyNum.ltb fi (Int (-1)) n && PyNum.ltb fi n (Int 0)
     then Ok 0xFF
     else i <~ PyNum.int n ;; Ok (Z.land i 0xFF)) = Ok integral /\
    PyNum.int (PyNum.truediv fi (PyNum.sub fi n (Int integral))
                                (Float (PyNum.quarter fi))) = Ok q /\
    let sign := if PyNum.ltb fi n (Int 0) then 0x10 else 0x00 in
    let frac_normal := Z.land q 0x03 in
    let buf := [ Z.lor sign (Z.shiftr integral 4);
                 Z.land (Z.lor (Z.shiftl integral 4) (Z.shiftl frac_normal 2))
                        0xFF ] in
    let run := call_set_limit fi self k (PNum n) w in
    Forall is_byte buf /\
    (exists res rest,
       new_events w (snd run) =
       BusWrite (addr self) (limit_register k) buf res :: rest) /\
    fst run = if forallb transaction_ok (new_events w (snd run))
              then Ok tt else Raise OSError.
Proof.
  intro Hr.
  destruct (alert_limit_buf_in_range fi n Hr)
    as (integral & q & Hi & Eint & Eq & Ebuf).
  pose proof (in_range_not_out fi n Hr) as Hout.
  exists integral, q. repeat (split; [assumption|]).
  cbn zeta. split; [|split].
  - constructor; [|constructor; [|constructor]]; unfold is_byte.
    + rewrite <- (store_byte_high (PyNum.ltb fi n (Int 0)) integral Hi).
      apply land_255_byte.
    + apply land_255_byte.
  - apply call_set_limit_accepted; [exact Hout|exact Ebuf].
  - apply (call_set_limit_outcome fi self k n w _ Hout Ebuf).
Qed.

Lemma set_alert_limit_in_range_witness :
  let self := session_of false cfg_sample in
  let w := Sim.boot Sim.power_up in
  let n := twenty_five_and_a_half FloatDouble in
  in_range FloatDouble n = true /\
  exists integral q,
    0 <= integral < 256 /\
    (if PyNum.ltb FloatDouble (Int (-1)) n && PyNum.ltb FloatDouble n (Int 0)
     then Ok 0xFF
     else i <~ PyNum.int n ;; Ok (Z.land i 0xFF)) = Ok integral /\
    PyNum.int (PyNum.truediv FloatDouble (PyNum.sub FloatDouble n (Int integral))
                 (Float (PyNum.quarter FloatDouble))) = Ok q /\
    let buf := [ Z.lor 0x00 (Z.shiftr integral 4);
                 Z.land (Z.lor (Z.shiftl integral 4)
                               (Z.shiftl (Z.land q 0x03) 2)) 0xFF ] in
    let run := call_set_limit FloatDouble self Upper (PNum n) w in
    Forall is_byte buf /\
    (exists res rest,
       new_events w (snd run) =
       BusWrite BASE_ADDR REG_ATU buf res :: rest) /\
    fst run = if forallb transaction_ok (new_events w (snd run))
              then Ok tt else Raise OSError.
Proof.
  intros self w n. split; [reflexivity|].
  exact (set_alert_limit_in_range FloatDouble self Upper n w eq_refl).
Defined.

(** 25.5 degrees on the upper limit: the bytes and the run. *)
Example set_upper_limit_25_5 :
  let run := set_alert_upper_limit FloatSingle (session_of false cfg_sample)
               (PNum (twenty_five_and_a_half FloatSingle))
               (Sim.boot Sim.power_up) in
  fst run = Ok tt /\
  bus_log (snd run) =
    [BusWrite 0x18 REG_ATU [0x01; 0x98] (Some tt);
     BusRead 0x18 REG_ATU 2 (Some [0x01; 0x98])].
Proof. split; reflexivity. Qed.

(** ** The encoding of -0.25 *)

(** C2, as stated, fails: the second byte for -0.25 is 0xFC, not 0xF4;
    these are the bytes that reach the critical-limit register. *)
Lemma minus_quarter_bytes_counterexample :
  alert_limit_buf FloatDouble (minus_quarter FloatDouble) <> Ok [0x1F; 0xF4] /\
  writes_of (bus_log (snd (set_alert_crit_limit FloatDouble
                             (session_of false cfg_sample)
                             (PNum (minus_quarter FloatDouble))
                             (Sim.boot Sim.power_up))))
  = [(REG_ATC, [0x1F; 0xFC])].
Proof. split; [discriminate|reflexivity]. Qed.

(** C2, amended: for -0.25 the sign bit is set, the integral part is 0xFF
    and the fraction bits are binary 11, which pack into the bytes 0x1F
    and 0xFC; each of the three setters writes these two bytes to its
    register, in both float formats. *)
Theorem minus_quarter_encoding {Dev} `{I2C Dev} (fi : float_impl)
  (self : mcp9808) (k : limit_kind) (w : world Dev) :
  PyNum.ltb fi (minus_quarter fi) (Int 0) = true /\
  (if PyNum.ltb fi (Int (-1)) (minus_quarter fi)
      && PyNum.ltb fi (minus_quarter fi) (Int 0)
   then Ok 0xFF
   else i <~ PyNum.int (minus_quarter fi) ;; Ok (Z.land i 0xFF)) = Ok 0xFF /\
  obind (PyNum.int (PyNum.truediv fi (PyNum.sub fi (minus_quarter fi) (Int 0xFF))
                                     (Float (PyNum.quarter fi))))
        (fun q => Ok (Z.land q 0x03)) = Ok 3 /\
  alert_limit_buf fi (minus_quarter fi) = Ok [0x1F; 0xFC] /\
  exists res rest,
    new_events w (snd (call_set_limit fi self k (PNum (minus_quarter fi)) w)) =
    BusWrite (addr self) (limit_register k) [0x1F; 0xFC] res :: rest.
Proof.
  assert (Hbuf : alert_limit_buf fi (minus_quarter fi) = Ok [0x1F; 0xFC])
    by (destruct fi; reflexivity).
  split; [destruct fi; reflexivity|].
  split; [destruct fi; reflexivity|].
  split; [destruct fi; reflexivity|].
  split; [exact Hbuf|].
  apply (call_set_limit_accepted fi self k (minus_quarter fi) w);
    [destruct fi; reflexivity|exact Hbuf].
Qed.

(** ** Nothing is ever printed *)

(** Whatever the debug flag, the methods that hand warnings to [__debug]
    leave the output as it was: on every path, in every world. *)
Lemma warnings_never_printed {Dev} `{I2C Dev} (fi : float_impl)
  (self : mcp9808) (w : world Dev) :
  (forall a, stdout (snd (set_config self a w)) = stdout w) /\
  (forall limit reg, stdout (snd (set_alert_limit fi self limit reg w)) = stdout w) /\
  (forall resolution,
     stdout (snd (set_resolution fi self resolution w)) = stdout w) /\
  stdout (snd (check_device self w)) = stdout w.
Proof.
  split; [|split; [|split]].
  - intro a. rewrite set_config_run.
    destruct (requested_config (cfg self) a); [|reflexivity].
    destruct (writeto_mem _ _ _ _) as [[[]|] d1]; [|reflexivity].
    destruct (readfrom_mem _ _ _ _) as [[back|] d2]; reflexivity.
  - intros limit reg. destruct limit as [| b | s | n]; try reflexivity.
    rewrite set_alert_limit_run.
    destruct (out_of_range fi n); [reflexivity|].
    destruct (alert_limit_buf fi n); [|reflexivity].
    destruct (writeto_mem _ _ _ _) as [[[]|] d1]; [|reflexivity].
    destruct (readfrom_mem _ _ _ _) as [[back|] d2]; reflexivity.
  - intro resolution. unfold set_resolution.
    destruct (negb _); [reflexivity|].
    unfold bind at 1, lift.
    destruct (and_int resolution 3) as [masked|e]; [|reflexivity].
    unfold bind at 1, i2c_writeto_mem.
    destruct (writeto_mem _ _ _ _) as [[[]|] d1]; [|reflexivity].
    unfold bind, i2c_readfrom_mem. cbn [dev bus_log stdout].
    destruct (readfrom_mem _ _ _ _) as [[back|] d2]; [|reflexivity].
    rewrite when_debug_silent. reflexivity.
  - rewrite check_device_run. cbn zeta.
    destruct (readfrom_mem _ _ _ _) as [[mfr|] d1]; [|reflexivity].
    destruct (negb _); [reflexivity|].
    destruct (readfrom_mem _ _ _ _) as [[did|] d2]; [|reflexivity].
    destruct (negb _); reflexivity.
Qed.

(** * Further properties of the driver *)

(** ** The bus address *)

(** X1: without an explicit address (or with [0], which [if addr:] takes
    for none) the session talks to [0x18 + 4*A2 + 2*A1 + A0], an address
    between 0x18 and 0x1F, and two pin settings share an address only if
    they are the same setting; any other explicit address is used as it
    is, whatever the pins. *)
Theorem session_addr_pins (A0 A1 A2 B0 B1 B2 : bool) (a : Z) :
  session_addr None A0 A1 A2 = 0x18 + 4 * b2z A2 + 2 * b2z A1 + b2z A0 /\
  0x18 <= session_addr None A0 A1 A2 <= 0x1F /\
  (session_addr None A0 A1 A2 =? session_addr None B0 B1 B2) =
    Bool.eqb A0 B0 && Bool.eqb A1 B1 && Bool.eqb A2 B2 /\
  session_addr (Some a) A0 A1 A2 =
    if a =? 0 then session_addr None A0 A1 A2 else a.
Proof.
  split; [destruct A0, A1, A2; reflexivity|].
  split; [destruct A0, A1, A2; split; intro Hc; vm_compute in Hc;
          discriminate Hc|].
  split; [destruct A0, A1, A2, B0, B1, B2; reflexivity|].
  unfold session_addr. destruct (a =? 0); reflexivity.
Qed.

(** ** The configuration register, from the wire *)

Lemma repack_table : forallb repack_agrees (below 256) = true.
Proof. vm_compute. reflexivity. Qed.

(** X2: unpacking two bytes of the configuration register and packing the
    result again gives the same bytes with the five unused bits of the
    first byte and the alert status bit (bit 4 of the second) cleared:
    every settable bit, the interrupt-clear bit included, survives. *)
Theorem pack_unpack_config (b0 b1 : Z) :
  is_byte b0 -> is_byte b1 ->
  pack_config (unpack_config [b0; b1]) = [Z.land b0 0x07; Z.land b1 0xEF].
Proof.
  intros Hb0 Hb1.
  pose proof (proj1 (forallb_forall _ _) repack_table b0
                (In_below 256 b0 Hb0)) as H0.
  pose proof (proj1 (forallb_forall _ _) repack_table b1
                (In_below 256 b1 Hb1)) as H1.
  unfold repack_agrees in H0, H1.
  apply andb_true_iff in H0, H1.
  destruct H0 as [H0 _], H1 as [_ H1].
  apply Z.eqb_eq in H0, H1.
  change (pack_config (unpack_config [b0; b1]))
    with [nth 0 (pack_config (unpack_config [b0; 0])) 0;
          nth 1 (pack_config (unpack_config [0; b1])) 0].
  rewrite H0, H1. reflexivity.
Qed.

Lemma pack_unpack_config_witness :
  is_byte 0xFF /\ is_byte 0xFF /\
  pack_config (unpack_config [0xFF; 0xFF]) = [0x07; 0xEF].
Proof.
  assert (H : is_byte 0xFF) by (unfold is_byte; lia).
  split; [exact H|]. split; [exact H|].
  exact (pack_unpack_config 0xFF 0xFF H H).
Defined.

(** ** The resolution register *)

Lemma valid_resolution_cases (r : Z) :
  valid_resolution r = true -> r = 0 \/ r = 1 \/ r = 2 \/ r = 3.
Proof.
  unfold valid_resolution, existsb, RES_0_5, RES_0_25, RES_0_125, RES_0_0625.
  rewrite !orb_true_iff, !Z.eqb_eq. intuition congruence.
Qed.

Lemma resolution_level_raises (fi : float_impl) (v : pyval) (e : exn) :
  resolution_level fi v = Raise e -> e = ValueError \/ e = TypeError.
Proof.
  destruct v as [| b | s | [r | f]]; cbn [resolution_level].
  - intros [= <-]. left. reflexivity.
  - discriminate.
  - intros [= <-]. left. reflexivity.
  - destruct (valid_resolution r); [discriminate|].
    intros [= <-]. left. reflexivity.
  - destruct (float_is_level fi f); intros [= <-]; [right|left]; reflexivity.
Qed.

Lemma set_resolution_run {Dev} `{I2C Dev} (fi : float_impl) (self : mcp9808)
  (resolution : pyval) (w : world Dev) :
  set_resolution fi self resolution w =
  match resolution_level fi resolution with
  | Ok r =>
    let '(res, d1) := writeto_mem (dev w) (addr self) REG_RES [r] in
    let w1 := {| dev := d1;
                 bus_log := bus_log w ++ [BusWrite (addr self) REG_RES [r] res];
                 stdout := stdout w |} in
    match res with
    | None => (Raise OSError, w1)
    | Some _ =>
        let '(res2, d2) := readfrom_mem d1 (addr self) REG_RES 1 in
        let w2 := {| dev := d2;
                     bus_log := bus_log w1 ++ [BusRead (addr self) REG_RES 1 res2];
                     stdout := stdout w |} in
        match res2 with
        | None => (Raise OSError, w2)
        | Some _ => (Ok tt, w2)
        end
    end
  | Raise e => (Raise e, w)
  end.
Proof.
  assert (Hbus : forall r, valid_resolution r = true ->
    (masked <- lift (and_int (PNum (Int r)) 0x03) ;;
     let buf := [store_byte (Z.lor 0 masked)] in
     i2c_writeto_mem (addr self) REG_RES buf ;;;
     check <- i2c_readfrom_mem (addr self) REG_RES 1 ;;
     when (negb (bytes_eqb check buf))
          (debug self (WarnResolution resolution (nth 0 check 0)))) w =
    let '(res, d1) := writeto_mem (dev w) (addr self) REG_RES [r] in
    let w1 := {| dev := d1;
                 bus_log := bus_log w ++ [BusWrite (addr self) REG_RES [r] res];
                 stdout := stdout w |} in
    match res with
    | None => (Raise OSError, w1)
    | Some _ =>
        let '(res2, d2) := readfrom_mem d1 (addr self) REG_RES 1 in
        let w2 := {| dev := d2;
                     bus_log := bus_log w1 ++ [BusRead (addr self) REG_RES 1 res2];
                     stdout := stdout w |} in
        match res2 with
        | None => (Raise OSError, w2)
        | Some _ => (Ok tt, w2)
        end
    end).
  { intros r Hv.
    assert (Hr : store_byte (Z.lor 0 (Z.land r 0x03)) = r).
    { destruct (valid_resolution_cases r Hv) as [-> | [-> | [-> | ->]]];
        reflexivity. }
    unfold bind at 1, lift. cbn [and_int]. cbv zeta. rewrite Hr.
    unfold bind at 1, i2c_writeto_mem.
    destruct (writeto_mem (dev w) (addr self) REG_RES [r]) as [[[]|] d1];
      [|reflexivity].
    unfold bind, i2c_readfrom_mem. cbn [dev bus_log stdout].
    destruct (readfrom_mem d1 (addr self) REG_RES 1) as [[check|] d2];
      [|reflexivity].
    rewrite when_debug_silent. reflexivity. }
  unfold set_resolution.
  destruct resolution as [| b | s | [r | f]]; cbn [resolution_level].
  - reflexivity.
  - replace (existsb (equals_int fi (PBool b)) _) with true
      by (destruct b; reflexivity).
    cbn [negb].
    change (and_int (PBool b) 3) with (and_int (PNum (Int (b2z b))) 3).
    apply Hbus. destruct b; reflexivity.
  - reflexivity.
  - change (existsb (equals_int fi (PNum (Int r))) _)
      with (valid_resolution r).
    destruct (valid_resolution r) eqn:Hv; cbn [negb]; [|reflexivity].
    apply Hbus. exact Hv.
  - change (existsb (equals_int fi (PNum (Float f))) _)
      with (float_is_level fi f).
    destruct (float_is_level fi f); reflexivity.
Qed.

(** The float [1.0] passes the membership test of [set_resolution] and
    fails at [resolution & 0x03]. *)
Lemma set_resolution_float_level {Dev} `{I2C Dev} (fi : float_impl)
  (self : mcp9808) (w : world Dev) :
  set_resolution fi self (PNum (Float (PyNum.float_of_int fi 1))) w =
  (Raise TypeError, w).
Proof.
  rewrite set_resolution_run. cbn [resolution_level].
  replace (float_is_level fi (PyNum.float_of_int fi 1)) with true
    by (destruct fi; reflexivity).
  reflexivity.
Qed.

Lemma set_resolution_level_written {Dev} `{I2C Dev} (fi : float_impl)
  (self : mcp9808) (resolution : pyval) (r : Z) (w : world Dev) :
  resolution_level fi resolution = Ok r ->
  let run := set_resolution fi self resolution w in
  (exists res rest,
     new_events w (snd run) =
     BusWrite (addr self) REG_RES [r] res :: rest) /\
  fst run = if forallb transaction_ok (new_events w (snd run))
            then Ok tt else Raise OSError.
Proof.
  intros Hl run. subst run. rewrite set_resolution_run, Hl.
  destruct (writeto_mem (dev w) (addr self) REG_RES [r]) as [[[]|] d1].
  - destruct (readfrom_mem d1 (addr self) REG_RES 1) as [[check|] d2];
      cbn [fst snd];
      (erewrite new_events_app
         by (cbn [bus_log]; rewrite <- app_assoc; reflexivity));
      (split; [do 2 eexists; reflexivity | reflexivity]).
  - cbn [fst snd].
    erewrite new_events_app by (cbn [bus_log]; reflexivity).
    split; [do 2 eexists; reflexivity | reflexivity].
Qed.

(** X3: what [set_resolution] does with its argument, which the source
    leaves untyped.  An int that is one of the four levels 0..3, and a bool
    (which counts as 0 or 1), is written as a single byte to the resolution
    register, first thing on the bus; the call then returns exactly when
    the write and the one-byte readback went through, whatever was read
    back, and raises the bus's [OSError] otherwise.  A float that equals a
    level, such as [1.0], passes the membership test and raises
    [TypeError] at [resolution & 0x03]; every other argument raises
    [ValueError].  Both refusals come before any bus traffic and leave the
    world as it was. *)
Theorem set_resolution_behaviour {Dev} `{I2C Dev} (fi : float_impl)
  (self : mcp9808) (resolution : pyval) (w : world Dev) :
  let run := set_resolution fi self resolution w in
  let written r :=
    (exists res rest,
       new_events w (snd run) =
       BusWrite (addr self) REG_RES [r] res :: rest) /\
    fst run = if forallb transaction_ok (new_events w (snd run))
              then Ok tt else Raise OSError in
  match resolution with
  | PNum (Int r) =>
      if valid_resolution r then written r else run = (Raise ValueError, w)
  | PBool b => written (b2z b)
  | PNum (Float f) =>
      run = (Raise (if float_is_level fi f then TypeError else ValueError), w)
  | PNone | PStr _ => run = (Raise ValueError, w)
  end.
Proof.
  intros run written. subst run written.
  destruct resolution as [| b | s | [r | f]].
  - rewrite set_resolution_run. reflexivity.
  - apply (set_resolution_level_written fi self (PBool b)). reflexivity.
  - rewrite set_resolution_run. reflexivity.
  - destruct (valid_resolution r) eqn:Hv.
    + apply (set_resolution_level_written fi self (PNum (Int r))).
      cbn [resolution_level]. rewrite Hv. reflexivity.
    + rewrite set_resolution_run. cbn [resolution_level]. rewrite Hv.
      reflexivity.
  - rewrite set_resolution_run. cbn [resolution_level].
    destruct (float_is_level fi f); reflexivity.
Qed.

(** ** The temperature register, flags and value *)

Lemma trigger_bits_table : forallb trigger_bits_agree (below 256) = true.
Proof. vm_compute. reflexivity. Qed.

(** X4: [get_alert_triggers] returns bits 7, 6 and 5 of the first byte of
    the temperature register (critical, upper, lower), and the value
    [get_temeperature] computes from the same two bytes does not depend on
    these three bits: it is the value of the bytes with the flags
    cleared. *)
Theorem temperature_register_split {Dev} `{I2C Dev} (fi : float_impl)
  (self : mcp9808) (w : world Dev) (raw : list Z) (d : Dev) :
  readfrom_mem (dev w) (addr self) REG_TEM 2 = (Some raw, d) ->
  exists b0 b1,
    raw = [b0; b1] /\
    fst (get_alert_triggers self w) =
      Ok (Z.testbit b0 7, Z.testbit b0 6, Z.testbit b0 5) /\
    fst (get_temeperature fi self w) =
      Ok (temperature_of fi [Z.land b0 0x1F; b1]).
Proof.
  intro Hread.
  destruct (readfrom_mem_bytes _ _ _ _ _ _ Hread) as [Hlen Hbytes].
  destruct raw as [|b0 [|b1 [|b2 raw]]]; try discriminate.
  inversion Hbytes as [|? ? Hb0 _]; subst.
  exists b0, b1. split; [reflexivity|]. split.
  - unfold get_alert_triggers, bind, i2c_readfrom_mem. rewrite Hread.
    cbn [fst ret nth].
    pose proof (proj1 (forallb_forall _ _) trigger_bits_table b0
                  (In_below 256 b0 Hb0)) as Ht.
    unfold trigger_bits_agree in Ht.
    apply andb_true_iff in Ht. destruct Ht as [Ht H5].
    apply andb_true_iff in Ht. destruct Ht as [H7 H6].
    apply Bool.eqb_prop in H5, H6, H7. rewrite H5, H6, H7. reflexivity.
  - unfold get_temeperature, bind, i2c_readfrom_mem. rewrite Hread.
    cbn [fst ret].
    rewrite (proj1 (temperature_of_low_bits fi b0 b1 Hb0)). reflexivity.
Qed.

Lemma temperature_register_split_witness :
  let self := session_of false cfg_sample in
  let w := Sim.boot Sim.power_up in
  readfrom_mem (dev w) (addr self) REG_TEM 2
    = (Some [0xC1; 0x94], Sim.power_up) /\
  exists b0 b1,
    [0xC1; 0x94] = [b0; b1] /\
    fst (get_alert_triggers self w) =
      Ok (Z.testbit b0 7, Z.testbit b0 6, Z.testbit b0 5) /\
    fst (get_temeperature FloatSingle self w) =
      Ok (temperature_of FloatSingle [Z.land b0 0x1F; b1]).
Proof.
  intros self w. split; [reflexivity|].
  exact (temperature_register_split FloatSingle self w [0xC1; 0x94]
           Sim.power_up eq_refl).
Defined.

Lemma temperature_exact_table (fi : float_impl) :
  forallb (fun b0 => forallb (temperature_exact fi b0) (below 256))
          (below 32) = true.
Proof. destruct fi; vm_compute; reflexivity. Qed.

Lemma temperature_exact_eq (fi : float_impl) (b0 b1 : Z) :
  temperature_exact fi b0 b1 = true ->
  temperature_of fi [b0; b1] =
  PyNum.truediv fi (Int (signed13 b0 b1)) (Int 16).
Proof.
  unfold temperature_exact.
  destruct (temperature_of fi [b0; b1]) as [z|x]; [discriminate|].
  destruct (PyNum.truediv fi (Int (signed13 b0 b1)) (Int 16)) as [z|y];
    [discriminate|].
  destruct x as [s|s| |s m e], y as [s'|s'| |s' m' e']; try discriminate.
  - intro E. apply Bool.eqb_prop in E. now subst.
  - rewrite !andb_true_iff. intros [[Es Em] Ee].
    apply Bool.eqb_prop in Es. apply Pos.eqb_eq in Em. apply Z.eqb_eq in Ee.
    now subst.
Qed.

(** X5: the temperature decoding is exact.  For any two bytes, the float
    [get_temeperature] computes is the quotient by 16 of the thirteen-bit
    two's complement integer held in bits 4..0 of the first byte and the
    second byte: the subtraction of 256 agrees with two's complement on
    every raw value, in both float formats. *)
Theorem temperature_of_twos_complement (fi : float_impl) (b0 b1 : Z) :
  is_byte b0 -> is_byte b1 ->
  temperature_of fi [b0; b1] =
  PyNum.truediv fi (Int (signed13 b0 b1)) (Int 16).
Proof.
  intros Hb0 Hb1.
  rewrite (proj1 (temperature_of_low_bits fi b0 b1 Hb0)).
  assert (Hs : signed13 b0 b1 = signed13 (Z.land b0 0x1F) b1).
  { unfold signed13. rewrite <- Z.land_assoc. reflexivity. }
  rewrite Hs. apply temperature_exact_eq.
  assert (Hlow : 0 <= Z.land b0 0x1F < Z.of_nat 32).
  { change 0x1F with (Z.ones 5). rewrite Z.land_ones by lia.
    change (Z.of_nat 32) with (2 ^ 5). apply Z.mod_pos_bound. lia. }
  pose proof (proj1 (forallb_forall _ _) (temperature_exact_table fi) _
                (In_below 32 _ Hlow)) as Hrow.
  exact (proj1 (forallb_forall _ _) Hrow b1 (In_below 256 b1 Hb1)).
Qed.

Lemma temperature_of_twos_complement_witness :
  is_byte 0x1F /\ is_byte 0xFC /\
  signed13 0x1F 0xFC = -4 /\
  temperature_of FloatDouble [0x1F; 0xFC] =
  PyNum.truediv FloatDouble (Int (signed13 0x1F 0xFC)) (Int 16).
Proof.
  assert (H0 : is_byte 0x1F) by (unfold is_byte; lia).
  assert (H1 : is_byte 0xFC) by (unfold is_byte; lia).
  split; [exact H0|]. split; [exact H1|]. split; [reflexivity|].
  exact (temperature_of_twos_complement FloatDouble 0x1F 0xFC H0 H1).
Defined.

(** ** Alert limits, read back *)

Lemma number_same_eq (a b : number) : number_same a b = true -> a = b.
Proof.
  destruct a as [x|x], b as [y|y]; cbn [number_same]; try discriminate.
  - intro E. apply Z.eqb_eq in E. now subst.
  - destruct x as [s|s| |s m e], y as [s'|s'| |s' m' e']; try discriminate;
      try reflexivity;
      try (intro E; apply Bool.eqb_prop in E; now subst).
    rewrite !andb_true_iff. intros [[Es Em] Ee].
    apply Bool.eqb_prop in Es. apply Pos.eqb_eq in Em. apply Z.eqb_eq in Ee.
    now subst.
Qed.

Lemma In_from (lo : Z) (n : nat) (z : Z) :
  lo <= z < lo + Z.of_nat n -> In z (from lo n).
Proof.
  intro Hz. unfold from. apply in_map_iff.
  exists (Z.to_nat (z - lo)). split; [lia|].
  apply in_seq. lia.
Qed.

Lemma quarter_limit_table (fi : float_impl) :
  forallb (quarter_limit_checked fi) (from (-512) 1021) = true.
Proof. destruct fi; vm_compute; reflexivity. Qed.

Lemma int_limit_table (fi : float_impl) :
  forallb (int_limit_checked fi) (from (-128) 256) = true.
Proof. destruct fi; vm_compute; reflexivity. Qed.

Lemma quarter_limit_held (fi : float_impl) (z : Z) :
  -512 <= z <= 508 ->
  exists b0 b1,
    alert_limit_buf fi (quarters fi z) = Ok [b0; b1] /\
    signed13 b0 b1 = 4 * held_quarters z /\
    temperature_of fi [b0; b1] = quarters fi (held_quarters z).
Proof.
  intro Hz.
  pose proof (proj1 (forallb_forall _ _) (quarter_limit_table fi) z
                (In_from (-512) 1021 z ltac:(lia))) as Hc.
  unfold quarter_limit_checked in Hc.
  destruct (alert_limit_buf fi (quarters fi z)) as [[|b0 [|b1 [|b2 l]]]|e];
    try discriminate.
  apply andb_true_iff in Hc. destruct Hc as [Hs Ht].
  apply Z.eqb_eq in Hs. apply number_same_eq in Ht.
  exists b0, b1. repeat split; assumption.
Qed.

(** X6: a limit on the quarter-degree grid from -0.75 to 127, or any whole
    number of degrees from -128 on, survives the round trip: the two bytes
    [__set_alert_limit] builds hold sixteen times the limit as a
    thirteen-bit two's complement integer, and [get_temeperature]'s
    arithmetic reads them back as the limit itself. *)
Theorem quarter_limit_roundtrip (fi : float_impl) (z : Z) :
  -512 <= z <= 508 ->
  -3 <= z \/ z mod 4 = 0 ->
  exists b0 b1,
    alert_limit_buf fi (quarters fi z) = Ok [b0; b1] /\
    signed13 b0 b1 = 4 * z /\
    temperature_of fi [b0; b1] = quarters fi z.
Proof.
  intros Hz Hgrid.
  assert (Hh : held_quarters z = z).
  { unfold held_quarters.
    destruct (z <? -4) eqn:E1; [|reflexivity].
    destruct (z mod 4 =? 0) eqn:E2; [reflexivity|].
    apply Z.ltb_lt in E1. apply Z.eqb_neq in E2. lia. }
  destruct (quarter_limit_held fi z Hz) as (b0 & b1 & Hb & Hs & Ht).
  rewrite Hh in Hs, Ht. exists b0, b1. repeat split; assumption.
Qed.

Lemma quarter_limit_roundtrip_witness :
  -512 <= -3 <= 508 /\ (-3 <= -3 \/ -3 mod 4 = 0) /\
  exists b0 b1,
    alert_limit_buf FloatSingle (quarters FloatSingle (-3)) = Ok [b0; b1] /\
    signed13 b0 b1 = 4 * -3 /\
    temperature_of FloatSingle [b0; b1] = quarters FloatSingle (-3).
Proof.
  assert (H1 : -512 <= -3 <= 508) by lia.
  assert (H2 : -3 <= -3 \/ -3 mod 4 = 0) by (left; lia).
  split; [exact H1|]. split; [exact H2|].
  exact (quarter_limit_roundtrip FloatSingle (-3) H1 H2).
Defined.

(** X7: below -1 and off the whole degrees the encoding is one degree
    high.  For a limit [z / 4] with [z] from -511 to -5 and not a multiple
    of 4, the bytes built hold [z / 4 + 1]: the integral part is truncated
    toward zero while the fraction is counted upward from it, so that
    -1.25 is written as the bytes of -0.25. *)
Theorem quarter_limit_one_degree_high (fi : float_impl) (z : Z) :
  -511 <= z <= -5 ->
  z mod 4 <> 0 ->
  exists b0 b1,
    alert_limit_buf fi (quarters fi z) = Ok [b0; b1] /\
    signed13 b0 b1 = 4 * (z + 4) /\
    temperature_of fi [b0; b1] = quarters fi (z + 4).
Proof.
  intros Hz Hgrid.
  assert (Hh : held_quarters z = z + 4).
  { unfold held_quarters.
    replace (z <? -4) with true by (symmetry; apply Z.ltb_lt; lia).
    replace (z mod 4 =? 0) with false by (symmetry; now apply Z.eqb_neq).
    reflexivity. }
  destruct (quarter_limit_held fi z ltac:(lia)) as (b0 & b1 & Hb & Hs & Ht).
  rewrite Hh in Hs, Ht. exists b0, b1. repeat split; assumption.
Qed.

Lemma quarter_limit_one_degree_high_witness :
  -511 <= -5 <= -5 /\ -5 mod 4 <> 0 /\
  exists b0 b1,
    alert_limit_buf FloatDouble (quarters FloatDouble (-5)) = Ok [b0; b1] /\
    signed13 b0 b1 = 4 * (-5 + 4) /\
    temperature_of FloatDouble [b0; b1] = quarters FloatDouble (-5 + 4).
Proof.
  assert (H1 : -511 <= -5 <= -5) by lia.
  assert (H2 : -5 mod 4 <> 0) by (intro Hc; discriminate Hc).
  split; [exact H1|]. split; [exact H2|].
  exact (quarter_limit_one_degree_high FloatDouble (-5) H1 H2).
Defined.

(** X8: an [int] limit from -128 to 127 is encoded exactly: the two bytes
    hold [16 * z] as a thirteen-bit two's complement integer and read back,
    with [get_temeperature]'s arithmetic, as the float [z]. *)
Theorem int_limit_roundtrip (fi : float_impl) (z : Z) :
  -128 <= z <= 127 ->
  exists b0 b1,
    alert_limit_buf fi (Int z) = Ok [b0; b1] /\
    signed13 b0 b1 = 16 * z /\
    temperature_of fi [b0; b1] = Float (PyNum.float_of_int fi z).
Proof.
  intro Hz.
  pose proof (proj1 (forallb_forall _ _) (int_limit_table fi) z
                (In_from (-128) 256 z ltac:(lia))) as Hc.
  unfold int_limit_checked in Hc.
  destruct (alert_limit_buf fi (Int z)) as [[|b0 [|b1 [|b2 l]]]|e];
    try discriminate.
  apply andb_true_iff in Hc. destruct Hc as [Hs Ht].
  apply Z.eqb_eq in Hs. apply number_same_eq in Ht.
  exists b0, b1. repeat split; assumption.
Qed.

Lemma int_limit_roundtrip_witness :
  -128 <= -128 <= 127 /\
  exists b0 b1,
    alert_limit_buf FloatDouble (Int (-128)) = Ok [b0; b1] /\
    signed13 b0 b1 = 16 * -128 /\
    temperature_of FloatDouble [b0; b1] =
    Float (PyNum.float_of_int FloatDouble (-128)).
Proof.
  assert (H1 : -128 <= -128 <= 127) by lia.
  split; [exact H1|].
  exact (int_limit_roundtrip FloatDouble (-128) H1).
Defined.

Lemma limit_bits_table : forallb limit_bits_checked (below 256) = true.
Proof. vm_compute. reflexivity. Qed.

(** X9: for every limit in range, [int] or float, the two bytes built
    leave the three flag bits of the first byte and the two lowest bits of
    the second clear, and bit 4 of the first byte, the sign bit, is set
    exactly when the limit is negative. *)
Theorem limit_bytes_layout (fi : float_impl) (n : number) :
  in_range fi n = true ->
  exists b0 b1,
    alert_limit_buf fi n = Ok [b0; b1] /\
    Z.land b0 0xE0 = 0 /\
    Z.land b1 0x03 = 0 /\
    Z.testbit b0 4 = PyNum.ltb fi n (Int 0).
Proof.
  intro Hr.
  destruct (alert_limit_buf_in_range fi n Hr)
    as (integral & q & Hi & _ & _ & Ebuf).
  pose proof (proj1 (forallb_forall _ _) limit_bits_table integral
                (In_below 256 integral Hi)) as Hc.
  unfold limit_bits_checked in Hc.
  apply andb_true_iff in Hc. destruct Hc as [Hsign Hfrac].
  do 2 eexists. split; [exact Ebuf|].
  assert (Hq : In (Z.land q 0x03) (below 4)).
  { apply In_below. change 0x03 with (Z.ones 2).
    rewrite Z.land_ones by lia. change (Z.of_nat 4) with (2 ^ 2).
    apply Z.mod_pos_bound. lia. }
  pose proof (proj1 (forallb_forall _ _) Hfrac _ Hq) as Hb1.
  apply Z.eqb_eq in Hb1.
  assert (Hs : In (if PyNum.ltb fi n (Int 0) then 0x10 else 0x00)
                  [0x00; 0x10]).
  { destruct (PyNum.ltb fi n (Int 0)); cbn; auto. }
  pose proof (proj1 (forallb_forall _ _) Hsign _ Hs) as Hb0.
  apply andb_true_iff in Hb0. destruct Hb0 as [Hflags Hbit].
  apply Z.eqb_eq in Hflags. apply Bool.eqb_prop in Hbit.
  split; [exact Hflags|]. split; [exact Hb1|].
  rewrite Hbit. destruct (PyNum.ltb fi n (Int 0)); reflexivity.
Qed.

Lemma limit_bytes_layout_witness :
  in_range FloatDouble (minus_quarter FloatDouble) = true /\
  exists b0 b1,
    alert_limit_buf FloatDouble (minus_quarter FloatDouble) = Ok [b0; b1] /\
    Z.land b0 0xE0 = 0 /\
    Z.land b1 0x03 = 0 /\
    Z.testbit b0 4 = PyNum.ltb FloatDouble (minus_quarter FloatDouble) (Int 0).
Proof.
  split; [reflexivity|].
  exact (limit_bytes_layout FloatDouble (minus_quarter FloatDouble) eq_refl).
Defined.

(** ** Where the bus traffic goes *)

Section BusTraffic.
Context {Dev : Type} `{I2C Dev}.
Variable P : bus_event -> bool.

Lemma appends_ret {A} (a : A) : appends P (ret (Dev := Dev) a).
Proof. intro w. exists []. split; [symmetry; apply app_nil_r|reflexivity]. Qed.

Lemma appends_raise {A} (e : exn) : appends P (raise (Dev := Dev) (A := A) e).
Proof. intro w. exists []. split; [symmetry; apply app_nil_r|reflexivity]. Qed.

Lemma appends_lift {A} (o : outcome A) : appends P (lift (Dev := Dev) o).
Proof. intro w. exists []. split; [symmetry; apply app_nil_r|reflexivity]. Qed.

Lemma appends_bind {A B} (c : M Dev A) (k : A -> M Dev B) :
  appends P c -> (forall a, appends P (k a)) -> appends P (bind c k).
Proof.
  intros Hc Hk w. unfold bind.
  destruct (Hc w) as (evs & Hlog & Hevs).
  destruct (c w) as [[a|e] w1]; cbn [snd] in Hlog.
  - destruct (Hk a w1) as (evs' & Hlog' & Hevs').
    exists (evs ++ evs'). split.
    + rewrite Hlog', Hlog, app_assoc. reflexivity.
    + rewrite forallb_app, Hevs, Hevs'. reflexivity.
  - exists evs. split; assumption.
Qed.

Lemma appends_debug (self : mcp9808) (text : message) :
  appends P (debug (Dev := Dev) self text).
Proof.
  intro w. rewrite debug_silent. exists [].
  split; [symmetry; apply app_nil_r|reflexivity].
Qed.

Lemma appends_when (b : bool) (c : M Dev unit) :
  appends P c -> appends P (when b c).
Proof. destruct b; [trivial|intros _; apply appends_ret]. Qed.

Lemma appends_read (a r : Z) (n : nat) :
  (forall res, P (BusRead a r n res) = true) ->
  appends P (i2c_readfrom_mem a r n).
Proof.
  intros HP w. unfold i2c_readfrom_mem.
  destruct (readfrom_mem (dev w) a r n) as [res d].
  exists [BusRead a r n res]. split.
  - destruct res; reflexivity.
  - cbn. now rewrite HP.
Qed.

Lemma appends_write (a r : Z) (buf : list Z) :
  (forall res, P (BusWrite a r buf res) = true) ->
  appends P (i2c_writeto_mem a r buf).
Proof.
  intros HP w. unfold i2c_writeto_mem.
  destruct (writeto_mem (dev w) a r buf) as [res d].
  exists [BusWrite a r buf res]. split.
  - destruct res; reflexivity.
  - cbn. now rewrite HP.
Qed.

Lemma appends_new_events {A} (c : M Dev A) (w : world Dev) :
  appends P c -> forallb P (new_events w (snd (c w))) = true.
Proof.
  intro Hc. destruct (Hc w) as (evs & Hlog & Hevs).
  now rewrite (new_events_app _ _ _ Hlog).
Qed.
End BusTraffic.

(** One step of a traffic proof: split a sequence, follow a branch, or
    close a leaf. *)
Ltac traffic_step :=
  first
    [ apply appends_debug
    | apply appends_bind; [|intro]
    | apply appends_when
    | apply appends_ret
    | apply appends_raise
    | apply appends_lift
    | apply appends_read; intro; cbn; rewrite ?Z.eqb_refl; reflexivity
    | apply appends_write; intro; cbn; rewrite ?Z.eqb_refl; reflexivity
    | progress cbv zeta
    | match goal with
      | |- appends _ (if ?b then _ else _) => destruct b
      | |- appends _ (match ?x with _ => _ end) => destruct x
      end ].

Ltac traffic := repeat traffic_step.

Section Placement.
Context {Dev : Type} `{I2C Dev}.

Lemma set_config_placed (self : mcp9808) (a : config_args) :
  appends (Dev := Dev) (wellplaced (addr self)) (set_config self a).
Proof. unfold set_config, get_config. traffic. Qed.

Lemma set_alert_limit_placed (fi : float_impl) (self : mcp9808)
  (limit : pyval) (k : limit_kind) :
  appends (Dev := Dev) (wellplaced (addr self))
          (set_alert_limit fi self limit (limit_register k)).
Proof. unfold set_alert_limit. destruct k; traffic. Qed.

(** X10: every bus transaction of a session goes to the session's own
    address and to a register of the map 0x01..0x08, and the driver writes
    to the configuration, limit and resolution registers only, never to
    the temperature or identity registers.  This holds for every public
    method, on every path, and for construction at the address computed
    from its arguments. *)
Theorem transactions_wellplaced (fi : float_impl) (self : mcp9808)
  (op : operation) (addr0 : option Z) (A0 A1 A2 debug : bool)
  (w : world Dev) :
  forallb (wellplaced (addr self))
          (new_events w (snd (run_operation fi self op w))) = true /\
  forallb (wellplaced (session_addr addr0 A0 A1 A2))
          (new_events w (snd (init addr0 A0 A1 A2 debug w))) = true.
Proof.
  split; [apply appends_new_events|].
  - destruct op as [s| |k limit|r| | |]; cbn [run_operation].
    + destruct s; apply set_config_placed.
    + apply set_config_placed.
    + apply appends_bind; [|intro; apply appends_ret].
      rewrite call_set_limit_eq. apply set_alert_limit_placed.
    + unfold set_resolution. traffic.
    + unfold get_alert_status, get_config. traffic.
    + unfold get_temeperature. traffic.
    + unfold get_alert_triggers. traffic.
  - unfold init, bind. rewrite check_device_run. cbn [addr dev bus_log].
    set (a := session_addr addr0 A0 A1 A2).
    assert (Ha : (a =? a) = true) by apply Z.eqb_refl.
    destruct (readfrom_mem (dev w) a REG_MFR 2) as [[mfr|] d1];
      [|erewrite new_events_app by reflexivity; cbn; now rewrite Ha].
    destruct (negb (bytes_eqb mfr [0x00; 0x54]));
      [erewrite new_events_app by reflexivity; cbn; now rewrite Ha|].
    destruct (readfrom_mem d1 a REG_DEV 2) as [[did|] d2];
      [|erewrite new_events_app
          by (cbn [snd bus_log]; rewrite <- app_assoc; reflexivity);
        cbn; now rewrite Ha].
    destruct (negb (nth 0 did 0 =? 4));
      [erewrite new_events_app
         by (cbn [snd bus_log]; rewrite <- app_assoc; reflexivity);
       cbn; now rewrite Ha|].
    rewrite get_config_run. cbn [addr dev bus_log].
    destruct (readfrom_mem d2 a REG_CFG 2) as [[c|] d3];
      (erewrite new_events_app
         by (cbn [snd bus_log]; rewrite <- !app_assoc; reflexivity));
      cbn; now rewrite Ha.
Qed.

(** X11: construction and the three getters never write: every
    transaction of [__init__], [get_alert_status], [get_temeperature] and
    [get_alert_triggers] is a read. *)
Theorem getters_never_write (fi : float_impl) (self : mcp9808)
  (addr0 : option Z) (A0 A1 A2 debug : bool) (w : world Dev) :
  forallb is_read (new_events w (snd (init addr0 A0 A1 A2 debug w))) = true /\
  forallb is_read (new_events w (snd (get_alert_status self w))) = true /\
  forallb is_read (new_events w (snd (get_temeperature fi self w))) = true /\
  forallb is_read (new_events w (snd (get_alert_triggers self w))) = true.
Proof.
  repeat split; apply appends_new_events.
  - unfold init, check_device, get_config. traffic.
  - unfold get_alert_status, get_config. traffic.
  - unfold get_temeperature. traffic.
  - unfold get_alert_triggers. traffic.
Qed.
End Placement.

(** ** Rejections and exceptions *)

Lemma SFcompare_some (a b : spec_float) :
  a <> S754_nan -> b <> S754_nan -> exists c, SFcompare a b = Some c.
Proof.
  intros Ha Hb.
  destruct a as [sa|sa| |sa ma ea], b as [sb|sb| |sb mb eb];
    try contradiction; cbn [SFcompare]; eexists; reflexivity.
Qed.

Lemma not_SFltb_SFleb (a b : spec_float) :
  a <> S754_nan -> b <> S754_nan -> SFltb b a = false -> SFleb a b = true.
Proof.
  intros Ha Hb. unfold SFltb, SFleb. rewrite (SFcompare_swap a b).
  destruct (SFcompare_some a b Ha Hb) as [c ->].
  destruct c; cbn; congruence.
Qed.

(** A number of the format that passes the range check of
    [__set_alert_limit] is within the range, or is the NaN. *)
Lemma range_check_passed (fi : float_impl) (n : number) :
  PyNum.valid fi n = true ->
  out_of_range fi n = false ->
  in_range fi n = true \/ n = Float S754_nan.
Proof.
  intros Hv Hout. unfold out_of_range, PyNum.gtb in Hout.
  apply orb_false_iff in Hout. destruct Hout as [Hlo Hhi].
  unfold in_range. rewrite Hv. cbn [andb].
  destruct n as [z|f]; cbn [PyNum.ltb PyNum.leb PyNum.to_float] in *.
  - left. apply Z.ltb_ge in Hlo, Hhi.
    apply andb_true_iff. split; now apply Z.leb_le.
  - destruct (float_of_range_ends fi) as (lo & hi & Elo & Ehi).
    rewrite Elo, Ehi in *.
    destruct f as [s|s| |s m e]; [| |now right|]; left;
      (apply andb_true_iff; split; apply not_SFltb_SFleb;
       (discriminate || assumption)).
Qed.

(** The NaN gets past the range check and is stopped by [int]. *)
Lemma alert_limit_buf_nan (fi : float_impl) :
  out_of_range fi (Float S754_nan) = false /\
  alert_limit_buf fi (Float S754_nan) = Raise ValueError.
Proof. destruct fi; split; reflexivity. Qed.

Section Rejections.
Context {Dev : Type} `{I2C Dev}.

(** X12: a number of the format that is not within [[-128, 127]], the NaN
    included, is refused by the three limit setters with [ValueError]
    before any bus traffic: the world is left as it was.  (The NaN passes
    the comparison with the bounds and is stopped by [int].) *)
Theorem limit_not_in_range_rejected (fi : float_impl) (self : mcp9808)
  (k : limit_kind) (n : number) (w : world Dev) :
  PyNum.valid fi n = true ->
  in_range fi n = false ->
  call_set_limit fi self k (PNum n) w = (Raise ValueError, w).
Proof.
  intros Hv Hr. rewrite call_set_limit_eq, set_alert_limit_run.
  destruct (out_of_range fi n) eqn:Hout; [reflexivity|].
  destruct (range_check_passed fi n Hv Hout) as [Hin | ->].
  - congruence.
  - rewrite (proj2 (alert_limit_buf_nan fi)). reflexivity.
Qed.

(** X13: a call that is refused changes nothing.  Whenever a public method
    raises [ValueError] or [TypeError], the world is the one before the
    call: no bus transaction was attempted and nothing was printed. *)
Theorem rejected_call_leaves_world (fi : float_impl) (self : mcp9808)
  (op : operation) (w : world Dev) :
  rejected (fst (run_operation fi self op w)) = true ->
  snd (run_operation fi self op w) = w.
Proof.
  assert (Hcfg : forall a,
    rejected (fst (set_config self a w)) = true ->
    snd (set_config self a w) = w).
  { intro a. rewrite set_config_run.
    destruct (requested_config (cfg self) a); [|reflexivity].
    destruct (writeto_mem _ _ _ _) as [[[]|] d1]; [|discriminate].
    destruct (readfrom_mem _ _ _ _) as [[back|] d2]; discriminate. }
  destruct op as [s| |k limit|r| | |]; cbn [run_operation].
  - destruct (call_setter_args self s) as (a & -> & _). apply Hcfg.
  - apply Hcfg.
  - unfold bind. rewrite call_set_limit_eq.
    destruct limit as [| b | s | n]; try reflexivity.
    rewrite set_alert_limit_run.
    destruct (out_of_range fi n); [reflexivity|].
    destruct (alert_limit_buf fi n); [|reflexivity].
    destruct (writeto_mem _ _ _ _) as [[[]|] d1]; [|discriminate].
    destruct (readfrom_mem _ _ _ _) as [[back|] d2]; discriminate.
  - unfold bind. rewrite set_resolution_run.
    destruct (resolution_level fi r); [|reflexivity].
    destruct (writeto_mem _ _ _ _) as [[[]|] d1]; [|discriminate].
    destruct (readfrom_mem _ _ _ _) as [[back|] d2]; discriminate.
  - unfold get_alert_status, bind. rewrite get_config_run.
    destruct (readfrom_mem _ _ _ _) as [[back|] d2]; discriminate.
  - unfold get_temeperature, bind, i2c_readfrom_mem.
    destruct (readfrom_mem _ _ _ _) as [[back|] d2]; discriminate.
  - unfold get_alert_triggers, bind, i2c_readfrom_mem.
    destruct (readfrom_mem _ _ _ _) as [[back|] d2]; discriminate.
Qed.

(** X14: the methods raise what they are written to raise and nothing
    else.  A public method called on a session, with any float it is given
    being a float of the format, returns or raises [ValueError],
    [TypeError] or the bus's [OSError]: no conversion overflows and no
    attribute is missing on any path. *)
Theorem only_foreseen_exceptions (fi : float_impl) (self : mcp9808)
  (op : operation) (w : world Dev) :
  well_formed fi op = true ->
  foreseen (fst (run_operation fi self op w)) = true.
Proof.
  intro Hwf.
  assert (Hcfg : forall a, foreseen (fst (set_config self a w)) = true).
  { intro a. rewrite set_config_run.
    destruct (requested_config (cfg self) a) as [r|e] eqn:Hr.
    - destruct (writeto_mem _ _ _ _) as [[[]|] d1]; [|reflexivity].
      destruct (readfrom_mem _ _ _ _) as [[back|] d2]; reflexivity.
    - destruct (requested_config_raises _ _ _ Hr) as [-> | ->]; reflexivity. }
  destruct op as [s| |k limit|r| | |]; cbn [run_operation].
  - destruct (call_setter_args self s) as (a & -> & _). apply Hcfg.
  - apply Hcfg.
  - unfold bind. rewrite call_set_limit_eq.
    destruct limit as [| b | s | n]; try reflexivity.
    cbn [well_formed] in Hwf.
    rewrite set_alert_limit_run.
    destruct (out_of_range fi n) eqn:Hout; [reflexivity|].
    destruct (range_check_passed fi n Hwf Hout) as [Hin | ->].
    + destruct (alert_limit_buf_in_range fi n Hin)
        as (integral & q & _ & _ & _ & ->).
      destruct (writeto_mem _ _ _ _) as [[[]|] d1]; [|reflexivity].
      destruct (readfrom_mem _ _ _ _) as [[back|] d2]; reflexivity.
    + rewrite (proj2 (alert_limit_buf_nan fi)). reflexivity.
  - unfold bind. rewrite set_resolution_run.
    destruct (resolution_level fi r) as [level|e] eqn:Hl.
    2: { destruct (resolution_level_raises fi r e Hl) as [-> | ->];
         reflexivity. }
    destruct (writeto_mem _ _ _ _) as [[[]|] d1]; [|reflexivity].
    destruct (readfrom_mem _ _ _ _) as [[back|] d2]; reflexivity.
  - unfold get_alert_status, bind. rewrite get_config_run.
    destruct (readfrom_mem _ _ _ _) as [[back|] d2]; reflexivity.
  - unfold get_temeperature, bind, i2c_readfrom_mem.
    destruct (readfrom_mem _ _ _ _) as [[back|] d2]; reflexivity.
  - unfold get_alert_triggers, bind, i2c_readfrom_mem.
    destruct (readfrom_mem _ _ _ _) as [[back|] d2]; reflexivity.
Qed.
End Rejections.

Lemma limit_not_in_range_rejected_witness :
  PyNum.valid FloatDouble (Float S754_nan) = true /\
  in_range FloatDouble (Float S754_nan) = false /\
  call_set_limit FloatDouble (session_of true cfg_sample) Lower
    (PNum (Float S754_nan)) (Sim.boot Sim.power_up)
  = (Raise ValueError, Sim.boot Sim.power_up).
Proof.
  split; [reflexivity|]. split; [reflexivity|].
  exact (limit_not_in_range_rejected FloatDouble _ Lower (Float S754_nan) _
           eq_refl eq_refl).
Defined.

Lemma rejected_call_leaves_world_witness :
  let self := session_of false cfg_sample in
  let w := Sim.boot Sim.power_up in
  let op := OpSetter (SetAlertMode (PNum (Int 1))) in
  rejected (fst (run_operation FloatDouble self op w)) = true /\
  fst (run_operation FloatDouble self op w) = Raise TypeError /\
  snd (run_operation FloatDouble self op w) = w.
Proof.
  intros self w op.
  split; [reflexivity|]. split; [reflexivity|].
  exact (rejected_call_leaves_world FloatDouble self op w eq_refl).
Defined.

Lemma only_foreseen_exceptions_witness :
  let self := session_of false cfg_sample in
  let w := Sim.boot Sim.power_up in
  let op := OpSetLimit Crit (PNum (twenty_five_and_a_half FloatSingle)) in
  well_formed FloatSingle op = true /\
  foreseen (fst (run_operation FloatSingle self op w)) = true.
Proof.
  intros self w op. split; [reflexivity|].
  exact (only_foreseen_exceptions FloatSingle self op w eq_refl).
Defined.

(** ** The cached configuration is always acceptable *)


Section AcceptableCache.
Context {Dev : Type} `{I2C Dev}.

(** With an acceptable hysteresis mode cached, a setter is refused
    exactly when its own argument is not what its signature announces. *)
Lemma setter_rejected_iff (self : mcp9808) (s : setter) (w : world Dev) :
  valid_hyst (hyst_mode (cfg self)) = true ->
  rejected (fst (call_setter self s w)) = negb (announced s).
Proof.
  intro Hv.
  assert (Hbus : forall r : config,
    rejected (fst (
      let '(res, d1) :=
        writeto_mem (dev w) (addr self) REG_CFG (pack_config r) in
      let w1 := {| dev := d1;
                   bus_log := bus_log w ++
                              [BusWrite (addr self) REG_CFG (pack_config r) res];
                   stdout := stdout w |} in
      match res with
      | None => (Raise OSError, w1)
      | Some _ =>
          let '(res2, d2) := readfrom_mem d1 (addr self) REG_CFG 2 in
          let w2 := {| dev := d2;
                       bus_log := bus_log w1 ++
                                  [BusRead (addr self) REG_CFG 2 res2];
                       stdout := stdout w |} in
          match res2 with
          | None => (Raise OSError, w2)
          | Some bs => (Ok (with_cfg self (unpack_config bs)), w2)
          end
      end)) = false).
  { intro r.
    destruct (writeto_mem _ _ _ _) as [[[]|] d1]; [|reflexivity].
    destruct (readfrom_mem _ _ _ _) as [[back|] d2]; reflexivity. }
  destruct s as [h|wake|unlock|unlock|disable|v|v|v];
    cbn [call_setter announced];
    unfold set_hysteresis_mode, shutdown, lock_crit_limit, lock_window_limit,
      enable_alert, set_alert_threshold, set_alert_polarity, set_alert_mode;
    rewrite set_config_run; unfold requested_config;
    cbn [arg_hyst_mode arg_shdn arg_crit_lock arg_window_lock
         arg_irq_clear_bit arg_alert_ctrl arg_alert_sel arg_alert_pol
         arg_alert_mode or_cached expect_bool obind];
    match goal with
    | |- context [existsb (Z.eqb ?x) _] => fold (valid_hyst x)
    end;
    rewrite ?Hv; cbn [negb].
  - destruct (valid_hyst h); cbn [negb]; [apply Hbus|reflexivity].
  - apply Hbus.
  - apply Hbus.
  - apply Hbus.
  - apply Hbus.
  - destruct v as [| b | str | n];
      cbn [or_cached expect_bool obind negb]; try reflexivity; apply Hbus.
  - destruct v as [| b | str | n];
      cbn [or_cached expect_bool obind negb]; try reflexivity; apply Hbus.
  - destruct v as [| b | str | n];
      cbn [or_cached expect_bool obind negb]; try reflexivity; apply Hbus.
Qed.

Lemma irq_clear_not_rejected (self : mcp9808) (w : world Dev) :
  valid_hyst (hyst_mode (cfg self)) = true ->
  rejected (fst (irq_clear self w)) = false.
Proof.
  intro Hv. unfold irq_clear. rewrite set_config_run.
  unfold requested_config.
  cbn [arg_hyst_mode arg_shdn arg_crit_lock arg_window_lock
       arg_irq_clear_bit arg_alert_ctrl arg_alert_sel arg_alert_pol
       arg_alert_mode or_cached expect_bool obind].
  fold (valid_hyst (hyst_mode (cfg self))). rewrite Hv. cbn [negb].
  destruct (writeto_mem _ _ _ _) as [[[]|] d1]; [|reflexivity].
  destruct (readfrom_mem _ _ _ _) as [[back|] d2]; reflexivity.
Qed.

(** A session that a method has refreshed caches an unpacked register. *)
Lemma refreshed_unpacked (fi : float_impl) (self self' : mcp9808)
  (op : operation) (w0 w1 : world Dev) :
  refreshes op = true ->
  run_operation fi self op w0 = (Ok self', w1) ->
  exists buf, cfg self' = unpack_config buf.
Proof.
  assert (Hcfg : forall a,
    set_config self a w0 = (Ok self', w1) ->
    exists buf, cfg self' = unpack_config buf).
  { intro a. rewrite set_config_run.
    destruct (requested_config (cfg self) a); [|discriminate].
    destruct (writeto_mem _ _ _ _) as [[[]|] d1]; [|discriminate].
    destruct (readfrom_mem _ _ _ _) as [[back|] d2]; [|discriminate].
    intros [= <- _]. exists back. reflexivity. }
  destruct op as [s| |k limit|r| | |]; cbn [refreshes run_operation];
    try discriminate; intros _.
  - destruct (call_setter_args self s) as (a & -> & _). apply Hcfg.
  - apply Hcfg.
  - unfold get_alert_status, bind. rewrite get_config_run.
    destruct (readfrom_mem _ _ _ _) as [[back|] d2]; [|discriminate].
    intros [= <- _]. exists back. reflexivity.
Qed.

Lemma init_unpacked (addr0 : option Z) (A0 A1 A2 debug : bool)
  (self' : mcp9808) (w0 w1 : world Dev) :
  init addr0 A0 A1 A2 debug w0 = (Ok self', w1) ->
  exists buf, cfg self' = unpack_config buf.
Proof.
  unfold init, bind. rewrite check_device_run. cbn zeta.
  destruct (readfrom_mem _ _ _ _) as [[mfr|] d1]; [|discriminate].
  destruct (negb (bytes_eqb mfr _)); [discriminate|].
  destruct (readfrom_mem _ _ _ _) as [[did|] d2]; [|discriminate].
  destruct (negb (nth 0 did 0 =? 4)); [discriminate|].
  rewrite get_config_run.
  destruct (readfrom_mem _ _ _ _) as [[back|] d3]; [|discriminate].
  intros [= <- _]. exists back. reflexivity.
Qed.

(** X15: the driver never caches a configuration it would refuse itself.
    On a session as [__init__] returns it, or as a setter, [irq_clear] or
    [get_alert_status] leaves it, the cached hysteresis mode is one of the
    four levels whatever the device answered; so, in any later world, a
    setter is refused exactly when its own argument is not a level, a bool
    or [None], and [irq_clear] is never refused. *)
Theorem refreshed_cache_accepted (fi : float_impl) (self self' : mcp9808)
  (op : operation) (addr0 : option Z) (A0 A1 A2 debug : bool)
  (w0 w1 : world Dev) :
  init addr0 A0 A1 A2 debug w0 = (Ok self', w1) \/
  (refreshes op = true /\ run_operation fi self op w0 = (Ok self', w1)) ->
  0 <= hyst_mode (cfg self') <= 3 /\
  forall (s : setter) (w : world Dev),
    rejected (fst (call_setter self' s w)) = negb (announced s) /\
    rejected (fst (irq_clear self' w)) = false.
Proof.
  intro Hfrom.
  assert (Hbuf : exists buf, cfg self' = unpack_config buf).
  { destruct Hfrom as [Hinit | [Hop Hrun]].
    - eapply init_unpacked; eassumption.
    - eapply refreshed_unpacked; eassumption. }
  destruct Hbuf as [buf Hbuf].
  assert (Hv : valid_hyst (hyst_mode (cfg self')) = true)
    by (rewrite Hbuf; apply unpack_config_hyst_valid).
  split.
  - destruct (valid_hyst_cases _ Hv) as [-> | [-> | [-> | ->]]]; lia.
  - intros s w. split.
    + now apply setter_rejected_iff.
    + now apply irq_clear_not_rejected.
Qed.

(** X16: a setter that is not refused first writes the configuration
    register with its own field at the value asked for: the hysteresis
    level given; [not wake], [not unlock], [not disable] for [shutdown],
    the two locks and [enable_alert]; the bool given for the alert
    threshold, polarity and mode, or the cached value when [None] was
    given. *)
Theorem setter_writes_requested (self : mcp9808) (s : setter)
  (w : world Dev) :
  rejected (fst (call_setter self s w)) = false ->
  exists data res rest,
    new_events w (snd (call_setter self s w)) =
      BusWrite (addr self) REG_CFG data res :: rest /\
    get_field (target s) (unpack_config data) = requested_value s (cfg self).
Proof.
  assert (Hgen : forall a v,
    (forall r, requested_config (cfg self) a = Ok r ->
               get_field (target s) r = v) ->
    rejected (fst (set_config self a w)) = false ->
    exists data res rest,
      new_events w (snd (set_config self a w)) =
        BusWrite (addr self) REG_CFG data res :: rest /\
      get_field (target s) (unpack_config data) = v).
  { intros a v Hval. rewrite set_config_run.
    destruct (requested_config (cfg self) a) as [r|e] eqn:Hr.
    - intros _. exists (pack_config r).
      assert (Hf : get_field (target s) (unpack_config (pack_config r)) = v).
      { rewrite get_field_unpack_pack
          by (apply (requested_config_ok _ _ _ Hr)).
        now apply Hval. }
      destruct (writeto_mem _ _ _ _) as [[[]|] d1].
      + destruct (readfrom_mem _ _ _ _) as [[back|] d2]; cbn [snd];
          (erewrite new_events_app
             by (cbn [bus_log]; rewrite <- app_assoc; reflexivity));
          (do 2 eexists; split; [reflexivity|exact Hf]).
      + cbn [snd]. erewrite new_events_app by (cbn [bus_log]; reflexivity).
        do 2 eexists. split; [reflexivity|exact Hf].
    - destruct (requested_config_raises _ _ _ Hr) as [-> | ->];
        discriminate. }
  destruct s as [h|wake|unlock|unlock|disable|v|v|v];
    cbn [call_setter target requested_value];
    unfold set_hysteresis_mode, shutdown, lock_crit_limit, lock_window_limit,
      enable_alert, set_alert_threshold, set_alert_polarity, set_alert_mode;
    apply Hgen; intros r Hr; apply requested_config_ok in Hr;
    destruct Hr as (_ & Eh & E1 & E2 & E3 & _ & E4 & E5 & E6 & E7);
    cbn [arg_hyst_mode arg_shdn arg_crit_lock arg_window_lock arg_alert_ctrl
         arg_alert_sel arg_alert_pol arg_alert_mode or_cached expect_bool]
      in *;
    cbn [get_field target].
  - exact Eh.
  - congruence.
  - congruence.
  - congruence.
  - congruence.
  - destruct v; cbn [or_cached expect_bool] in E5; congruence.
  - destruct v; cbn [or_cached expect_bool] in E6; congruence.
  - destruct v; cbn [or_cached expect_bool] in E7; congruence.
Qed.
End AcceptableCache.

Lemma refreshed_cache_accepted_witness :
  let w0 := Sim.boot (Sim.set_reg Sim.power_up REG_CFG [0xFF; 0xFF]) in
  let run := init None false false false false w0 in
  let self' := {| debug_bit := false; addr := BASE_ADDR;
                  mfr_id := [0x00; 0x54]; dev_id := [0x04; 0x00];
                  cfg := unpack_config [0xFF; 0xFF] |} in
  init None false false false false w0 = (Ok self', snd run) /\
  0 <= hyst_mode (cfg self') <= 3 /\
  forall (s : setter) (w : world Sim.sensor),
    rejected (fst (call_setter self' s w)) = negb (announced s) /\
    rejected (fst (irq_clear self' w)) = false.
Proof.
  intros w0 run self'.
  assert (Hinit : init None false false false false w0 = (Ok self', snd run))
    by reflexivity.
  split; [exact Hinit|].
  exact (refreshed_cache_accepted FloatDouble self' self' OpIrqClear None
           false false false false w0 (snd run) (or_introl Hinit)).
Defined.

Lemma setter_writes_requested_witness :
  let self := session_of false cfg_sample in
  let w := Sim.boot Sim.power_up in
  rejected (fst (call_setter self (Shutdown true) w)) = false /\
  exists data res rest,
    new_events w (snd (call_setter self (Shutdown true) w)) =
      BusWrite (addr self) REG_CFG data res :: rest /\
    get_field FShdn (unpack_config data) = 0.
Proof.
  intros self w. split; [reflexivity|].
  exact (setter_writes_requested self (Shutdown true) w eq_refl).
Defined.
